(** * The event pipeline of the [social_network] package

    A shallow embedding of [models.py] (the domain events and their
    [response] serialisers), [controller.py] (the producers built on
    [SendToKafka.push]), [consumer.py] (the polling loop of
    [setup_consumer]) and [test_kafka.py] ([get_weather] and the loop of
    [setup_producer]), together with the fragment of the Python runtime
    these files rely on: exceptions and [try]/[except], the [with]
    statement, [print], [time.sleep] and [json.dumps].

    Beside the pipeline: the insurance premiums of [solid_principle.py],
    the user manager and [PostModel.__str__] of [core/models.py], and the
    serializers of [jwt_auth/serializers.py], with what Django does
    (hashing, saving, authenticating) given as a record of outcomes.

    Conventions.
    - A Python [str] is the list of its code points.
    - A computation is a pair of the trace of external calls it made and of
      its outcome: a returned value, a raised exception, or [Running] for a
      loop that has not left within the number of iterations observed.
    - Everything the code cannot decide by itself (the broker, the HTTP
      endpoint, the clock, Ctrl-C, the room that the recursion limit
      leaves) is a record of outcomes given as an argument.
    - The interpreter is CPython 3.11 with its defaults: at most 4300
      digits in the text of an [int], and a [RecursionError] from the
      encoder of [json.dumps] when the containers of a value are nested
      deeper than the recursion limit leaves room for. *)

From Stdlib Require Import ZArith NArith List String Ascii Bool Lia.
From Stdlib Require Import DecimalN.
Import ListNotations.

Set Warnings "-register-all".

(* ================================================================== *)
(** * The Python runtime fragment *)
(* ================================================================== *)

Module Py.

(** ** Text *)

Definition str := list N.

Definition py (s : string) : str := map N_of_ascii (list_ascii_of_string s).

Fixpoint str_eqb (a b : str) : bool :=
  match a, b with
  | [], [] => true
  | x :: a', y :: b' => N.eqb x y && str_eqb a' b'
  | _, _ => false
  end.

(** ** Exceptions *)

(** The classes that occur.  [KeyboardInterrupt] derives from
    [BaseException] only; every other class derives from [Exception].  The
    classes of [requests.exceptions] derive from [RequestException].
    [Custom] stands for any further subclass of [Exception] that is not a
    [RequestException]. *)
Inductive exc_class :=
| KeyboardInterrupt
| TypeError
| AttributeError
| ValueError
| RecursionError
| KafkaException
| RequestException
| RequestsConnectionError
| RequestsTimeout
| RequestsJSONDecodeError
| Custom (name : string).

(** [type(e).__name__] *)
Definition class_name (c : exc_class) : string :=
  match c with
  | KeyboardInterrupt => "KeyboardInterrupt"
  | TypeError => "TypeError"
  | AttributeError => "AttributeError"
  | ValueError => "ValueError"
  | RecursionError => "RecursionError"
  | KafkaException => "KafkaException"
  | RequestException => "RequestException"
  | RequestsConnectionError => "ConnectionError"
  | RequestsTimeout => "Timeout"
  | RequestsJSONDecodeError => "JSONDecodeError"
  | Custom name => name
  end.

(** An exception object: its class and [str(e)]. *)
Record exn := mkExn { exc_cls : exc_class; exc_str : str }.

(** [isinstance(e, Exception)] *)
Definition is_Exception (e : exn) : bool :=
  match exc_cls e with
  | KeyboardInterrupt => false
  | _ => true
  end.

(** [isinstance(e, requests.exceptions.RequestException)] *)
Definition is_RequestException (e : exn) : bool :=
  match exc_cls e with
  | RequestException | RequestsConnectionError
  | RequestsTimeout | RequestsJSONDecodeError => true
  | _ => false
  end.

(** ** Outcomes *)

(** The outcome of a call that ends: a value or an exception. *)
Inductive outcome (A : Type) :=
| Ok (a : A)
| Err (e : exn).

Arguments Ok {A} a.
Arguments Err {A} e.

(** The outcome of a computation, which may also be a loop still
    running. *)
Inductive result (A : Type) :=
| Return (a : A)
| Raise (e : exn)
| Running.

Arguments Return {A} a.
Arguments Raise {A} e.
Arguments Running {A}.

Definition done {A} (o : outcome A) : result A :=
  match o with
  | Ok a => Return a
  | Err e => Raise e
  end.

(** ** Values *)

(** [datetime.time] and [datetime.datetime] *)
Record time := mkTime { hour : Z; minute : Z; second : Z; microsecond : Z }.

Record datetime := mkDatetime { year : Z; month : Z; day : Z; time_of_day : time }.

(** [datetime.time(d)], that is [d.time()] *)
Definition datetime_time (d : datetime) : time := time_of_day d.

(** A [float], by the text that [float.__repr__] writes for it when it
    is finite: the shortest decimal text that reads back as the same
    [float]. *)
Inductive float :=
| Finite (repr : str)
| NaN
| Infinity (negative : bool).

(** The values that are passed to [json.dumps], to [print] and to the
    producer: what [response.json()] gives ([None], [bool], [int],
    [float], [str], [list], and [dict] with [str] keys), and the
    [datetime.time] and the exception objects that the program puts where
    such a value is expected.  A [dict] is the list of its items in
    insertion order.  [VSize n] is the [int] that [len] returns for a
    container of [n] elements: a [Py_ssize_t], below [2 ** 63]. *)
Inductive value :=
| VNone
| VBool (b : bool)
| VInt (z : Z)
| VSize (n : nat)
| VFloat (f : float)
| VStr (s : str)
| VList (elements : list value)
| VDict (items : list (str * value))
| VTime (t : time)
| VExc (e : exn).

(** ** External calls *)

Inductive io :=
| Print (args : list value)
| Sleep (seconds : Z)
| GetProducer
| Produce (topic key val : value)
| ProducerExit
| GetConsumer
| Subscribe (topics : list str)
| Poll (timeout : Z)
| ConsumerExit
| HttpGet (url : str).

(** ** Computations *)

Definition M (A : Type) : Type := list io * result A.

Definition ret {A} (a : A) : M A := ([], Return a).

Definition raise {A} (e : exn) : M A := ([], Raise e).

Definition lift {A} (o : outcome A) : M A := ([], done o).

(** An external call: it is recorded and the environment gives its outcome. *)
Definition call {A} (ev : io) (o : outcome A) : M A := ([ev], done o).

Definition bind {A B} (m : M A) (k : A -> M B) : M B :=
  match m with
  | (t, Return a) => let (t', r) := k a in (t ++ t', r)
  | (t, Raise e) => (t, Raise e)
  | (t, Running) => (t, Running)
  end.

(** [try: body  except C as e: handler e], where [catches e] is
    [isinstance(e, C)]. *)
Definition try_except {A} (body : M A) (catches : exn -> bool)
    (handler : exn -> M A) : M A :=
  match body with
  | (t, Raise e) =>
      if catches e then let (t', r) := handler e in (t ++ t', r)
      else (t, Raise e)
  | other => other
  end.

(** [with enter as x: body x], for a context manager whose [__exit__]
    returns [None]: it runs when the block is left, by its end or by an
    exception, and an exception of [__exit__] itself replaces the pending
    one.  When [enter] raises, [__exit__] is not called. *)
Definition with_ {A B} (enter : M A) (exit_ : M unit) (body : A -> M B) : M B :=
  match enter with
  | (t, Return a) =>
      match body a with
      | (tb, Running) => (t ++ tb, Running)
      | (tb, rb) =>
          match exit_ with
          | (te, Return _) => (t ++ tb ++ te, rb)
          | (te, Raise e') => (t ++ tb ++ te, Raise e')
          | (te, Running) => (t ++ tb ++ te, Running)
          end
      end
  | (t, Raise e) => (t, Raise e)
  | (t, Running) => (t, Running)
  end.

Definition print (args : list value) : M unit := call (Print args) (Ok tt).

(** [while True: body], observed for [fuel] iterations; [i] counts the
    iterations already made.  The loop has no [break]: it is left by an
    exception only. *)
Fixpoint while_true (body : nat -> M unit) (fuel i : nat) : M unit :=
  match fuel with
  | O => ([], Running)
  | S fuel' => bind (body i) (fun _ => while_true body fuel' (S i))
  end.

Definition keyboard_interrupt : exn := mkExn KeyboardInterrupt [].

(** [time.sleep(seconds)]; Ctrl-C is the only thing that ends it early. *)
Definition sleep (seconds : Z) (interrupted : bool) : M unit :=
  call (Sleep seconds) (if interrupted then Err keyboard_interrupt else Ok tt).

(** ** [json.dumps] *)

(** The decimal text of an integer: its digits, with a sign for a negative
    number. *)
Fixpoint uint_chars (d : Decimal.uint) : str :=
  match d with
  | Decimal.Nil => []
  | Decimal.D0 d' => 48%N :: uint_chars d'
  | Decimal.D1 d' => 49%N :: uint_chars d'
  | Decimal.D2 d' => 50%N :: uint_chars d'
  | Decimal.D3 d' => 51%N :: uint_chars d'
  | Decimal.D4 d' => 52%N :: uint_chars d'
  | Decimal.D5 d' => 53%N :: uint_chars d'
  | Decimal.D6 d' => 54%N :: uint_chars d'
  | Decimal.D7 d' => 55%N :: uint_chars d'
  | Decimal.D8 d' => 56%N :: uint_chars d'
  | Decimal.D9 d' => 57%N :: uint_chars d'
  end.

Definition int_text (z : Z) : str :=
  match z with
  | Zneg p => 45%N :: uint_chars (N.to_uint (Npos p))
  | _ => uint_chars (N.to_uint (Z.to_N z))
  end.

(** The limit of CPython on the conversion of an [int] to text,
    [sys.get_int_max_str_digits()], which the program leaves at its
    default.  It bears on the digits, not on the sign. *)
Definition int_max_str_digits : nat := 4300.

Definition digits (z : Z) : nat :=
  List.length (uint_chars (N.to_uint (Z.abs_N z))).

Definition too_many_digits : exn :=
  mkExn ValueError
    (py ("Exceeds the limit (4300 digits) for integer string conversion; "
         ++ "use sys.set_int_max_str_digits() to increase the limit")).

(** [int.__repr__], as the interpreter limits it: [ValueError] for an
    [int] of more digits than the limit. *)
Definition int_repr (z : Z) : outcome str :=
  if (digits z <=? int_max_str_digits)%nat then Ok (int_text z)
  else Err too_many_digits.

(** What the encoder writes for a [float]: [float.__repr__], and the
    JavaScript names of the values that are no numbers. *)
Definition float_str (f : float) : str :=
  match f with
  | Finite repr => repr
  | NaN => py "NaN"
  | Infinity false => py "Infinity"
  | Infinity true => py "-Infinity"
  end.

(** One lower-case hexadecimal digit, and ['{0:04x}'.format(n)]. *)
Definition hex_digit (d : N) : N :=
  if (d <? 10)%N then (48 + d)%N else (87 + d)%N.

Definition hex4 (n : N) : str :=
  [ hex_digit ((n / 4096) mod 16); hex_digit ((n / 256) mod 16);
    hex_digit ((n / 16) mod 16); hex_digit (n mod 16) ]%N.

Definition backslash_u (n : N) : str := 92%N :: 117%N :: hex4 n.

(** [json.encoder.py_encode_basestring_ascii], one character: the table
    [ESCAPE_DCT], printable ASCII as it is, [\uXXXX] for the rest of the
    basic plane and a surrogate pair above it. *)
Definition escape_char (c : N) : str :=
  if (c =? 34)%N then [92; 34]%N
  else if (c =? 92)%N then [92; 92]%N
  else if (c =? 10)%N then [92; 110]%N
  else if (c =? 13)%N then [92; 114]%N
  else if (c =? 9)%N then [92; 116]%N
  else if (c =? 8)%N then [92; 98]%N
  else if (c =? 12)%N then [92; 102]%N
  else if ((32 <=? c) && (c <=? 126))%N then [c]
  else if (c <? 65536)%N then backslash_u c
  else
    let n := (c - 65536)%N in
    backslash_u (N.lor 55296 (N.land (N.shiftr n 10) 1023))
      ++ backslash_u (N.lor 56320 (N.land n 1023)).

Definition encode_basestring_ascii (s : str) : str :=
  34%N :: flat_map escape_char s ++ [34%N].

Definition not_serializable (type_name : string) : exn :=
  mkExn TypeError (py ("Object of type " ++ type_name ++ " is not JSON serializable")).

(** The three ways in which the encoder reaches the recursion limit of
    the interpreter: when it opens a container, when it calls
    [JSONEncoder.default] for an object it does not know, and inside that
    call. *)
Definition recursion_error (context : string) : exn :=
  mkExn RecursionError (py ("maximum recursion depth exceeded" ++ context)).

(** [JSONEncoder.default(o)], which raises [TypeError], when the
    recursion limit leaves [room] calls. *)
Definition default {A} (room : nat) (type_name : string) : outcome A :=
  match room with
  | O => Err (recursion_error EmptyString)
  | S O => Err (recursion_error " while calling a Python object")
  | _ => Err (not_serializable type_name)
  end.

(** The encoder of [json.dumps], with the default separators [', '] and
    [': '], when the recursion limit of the interpreter leaves it [room]
    calls: it takes one to open a [list] or a [dict], the elements being
    written with what is left, and two to report an object that it does
    not write.  The first element that raises ends the encoding. *)
Fixpoint encode (room : nat) (v : value) {struct v} : outcome str :=
  match v with
  | VNone => Ok (py "null")
  | VBool b => Ok (py (if b then "true" else "false"))
  | VInt z => int_repr z
  | VSize n => Ok (int_text (Z.of_nat n))
  | VFloat f => Ok (float_str f)
  | VStr s => Ok (encode_basestring_ascii s)
  | VList elements =>
      match room with
      | O => Err (recursion_error " while encoding a JSON object")
      | S room' =>
          let fix elems (l : list value) (first : bool) : outcome str :=
            match l with
            | [] => Ok []
            | x :: l' =>
                match encode room' x with
                | Ok sx =>
                    match elems l' false with
                    | Ok sr => Ok ((if first then [] else py ", ") ++ sx ++ sr)
                    | Err e => Err e
                    end
                | Err e => Err e
                end
            end in
          match elems elements true with
          | Ok body => Ok (py "[" ++ body ++ py "]")
          | Err e => Err e
          end
      end
  | VDict items =>
      match room with
      | O => Err (recursion_error " while encoding a JSON object")
      | S room' =>
          let fix members (l : list (str * value)) (first : bool) : outcome str :=
            match l with
            | [] => Ok []
            | (k, x) :: l' =>
                match encode room' x with
                | Ok sx =>
                    match members l' false with
                    | Ok sr =>
                        Ok ((if first then [] else py ", ")
                              ++ encode_basestring_ascii k ++ py ": " ++ sx ++ sr)
                    | Err e => Err e
                    end
                | Err e => Err e
                end
            end in
          match members items true with
          | Ok body => Ok (py "{" ++ body ++ py "}")
          | Err e => Err e
          end
      end
  | VTime _ => default room "time"
  | VExc e => default room (class_name (exc_cls e))
  end.

(** The elements of a [list] and the members of a [dict], as [encode]
    writes them. *)
Definition encode_elements (room : nat) : list value -> bool -> outcome str :=
  fix elems (l : list value) (first : bool) : outcome str :=
    match l with
    | [] => Ok []
    | x :: l' =>
        match encode room x with
        | Ok sx =>
            match elems l' false with
            | Ok sr => Ok ((if first then [] else py ", ") ++ sx ++ sr)
            | Err e => Err e
            end
        | Err e => Err e
        end
    end.

Definition encode_members (room : nat)
    : list (str * value) -> bool -> outcome str :=
  fix members (l : list (str * value)) (first : bool) : outcome str :=
    match l with
    | [] => Ok []
    | (k, x) :: l' =>
        match encode room x with
        | Ok sx =>
            match members l' false with
            | Ok sr =>
                Ok ((if first then [] else py ", ")
                      ++ encode_basestring_ascii k ++ py ": " ++ sx ++ sr)
            | Err e => Err e
            end
        | Err e => Err e
        end
    end.

(** How deep the containers of a value are nested. *)
Fixpoint depth (v : value) : nat :=
  match v with
  | VList elements =>
      S ((fix deepest (l : list value) : nat :=
            match l with
            | [] => O
            | x :: l' => Nat.max (depth x) (deepest l')
            end) elements)
  | VDict items =>
      S ((fix deepest (l : list (str * value)) : nat :=
            match l with
            | [] => O
            | (_, x) :: l' => Nat.max (depth x) (deepest l')
            end) items)
  | _ => O
  end.

Fixpoint elements_depth (l : list value) : nat :=
  match l with
  | [] => O
  | x :: l' => Nat.max (depth x) (elements_depth l')
  end.

Fixpoint members_depth (l : list (str * value)) : nat :=
  match l with
  | [] => O
  | (_, x) :: l' => Nat.max (depth x) (members_depth l')
  end.

(** [json.dumps(v)] when the recursion limit leaves [spare] calls more
    than the two that every call of the encoder may take. *)
Definition json_dumps_within (spare : nat) (v : value) : outcome str :=
  encode (2 + spare) v.

(** [json.dumps(v)] far from the recursion limit, as for the dictionaries
    that the program builds itself, which are nested twice at most: with
    room for the containers of [v]. *)
Definition json_dumps (v : value) : outcome str :=
  json_dumps_within (depth v) v.

(** The members of an object, as [json_dumps] writes them. *)
Fixpoint json_members (l : list (str * value)) (first : bool) : outcome str :=
  match l with
  | [] => Ok []
  | (k, x) :: l' =>
      match json_dumps x with
      | Ok sx =>
          match json_members l' false with
          | Ok sr =>
              Ok ((if first then [] else py ", ")
                    ++ encode_basestring_ascii k ++ py ": " ++ sx ++ sr)
          | Err e => Err e
          end
      | Err e => Err e
      end
  end.

End Py.

Import Py.

Notation "x <- m ;; k" := (bind m (fun x => k))
  (at level 61, m at next level, right associativity).
Notation "m ;;; k" := (bind m (fun _ => k))
  (at level 61, right associativity).


(* ================================================================== *)
(** * models.py *)
(* ================================================================== *)

(** Objects are records of their attributes.  The only method that
    assigns to an attribute or mutates one after [__init__] is
    [Post.add_like]; it is modelled as a function to the object's next
    state.  A [User] has no mutating method, so a reference to a [User]
    held by another object is modelled by the [User] itself. *)

Module BaseModel.

Record t := mk { _created_at : time; _updated_at : time }.

(** [now1] and [now2] are the readings of the two calls of
    [datetime.now()]. *)
Definition init (now1 now2 : datetime) : t :=
  {| _created_at := datetime_time now1; _updated_at := datetime_time now2 |}.

End BaseModel.

Module User.

Record t := mk {
  base : BaseModel.t;
  username : str;
  password : str;
  email : str
}.

Definition init (now1 now2 : datetime) (username password email : str) : t :=
  {| base := BaseModel.init now1 now2;
     username := username; password := password; email := email |}.

Definition get_username (self : t) : str := username self.
Definition get_email (self : t) : str := email self.
Definition created_at (self : t) : time := BaseModel._created_at (base self).
Definition update_at (self : t) : time := BaseModel._updated_at (base self).

(** The dictionary [data] of [response]. *)
Definition data (self : t) : value :=
  VDict [ (py "username", VStr (username self));
          (py "email", VStr (email self)) ].

Definition response (self : t) : outcome str := json_dumps (data self).

End User.

Module Profile.

Record t := mk {
  base : BaseModel.t;
  user : User.t;
  first_name : str;
  last_name : str;
  bio : option str;
  contact : option Z
}.

Definition init (now1 now2 : datetime) (user : User.t)
    (first_name last_name : str) (bio : option str) (contact : option Z) : t :=
  {| base := BaseModel.init now1 now2; user := user;
     first_name := first_name; last_name := last_name;
     bio := bio; contact := contact |}.

Definition get_user (self : t) : User.t := user self.
Definition get_first_name (self : t) : str := first_name self.
Definition get_last_name (self : t) : str := last_name self.
Definition get_bio (self : t) : option str := bio self.
Definition get_contact (self : t) : option Z := contact self.

Definition opt_str (o : option str) : value :=
  match o with Some s => VStr s | None => VNone end.

Definition opt_int (o : option Z) : value :=
  match o with Some z => VInt z | None => VNone end.

(** The dictionary passed to [json.dumps] by [response]. *)
Definition data (self : t) : value :=
  VDict [ (py "user",
            VDict [ (py "username", VStr (User.get_username (user self)));
                    (py "email", VStr (User.get_email (user self))) ]);
          (py "first_name", VStr (first_name self));
          (py "last_name", VStr (last_name self));
          (py "bio", opt_str (bio self));
          (py "contact", opt_int (contact self)) ].

Definition response (self : t) : outcome str := json_dumps (data self).

End Profile.

Module Post.

Record t := mk {
  base : BaseModel.t;
  user : User.t;
  title : str;
  content : str;
  liked : list User.t
}.

Definition init (now1 now2 : datetime) (user : User.t) (title content : str) : t :=
  {| base := BaseModel.init now1 now2; user := user;
     title := title; content := content; liked := [] |}.

Definition get_user (self : t) : User.t := user self.
Definition get_title (self : t) : str := title self.
Definition get_like_count (self : t) : Z := Z.of_nat (List.length (liked self)).

(** [self.__liked.append(user)]: the state of [self] after the call. *)
Definition add_like (self : t) (u : User.t) : t :=
  {| base := base self; user := user self; title := title self;
     content := content self; liked := liked self ++ [u] |}.

(** The dictionary [data] of [response]; [like_count] is the [len] of
    the list of likes, and [created_at] is the [datetime.time] object
    itself. *)
Definition data (self : t) : value :=
  VDict [ (py "user",
            VDict [ (py "username", VStr (User.get_username (user self)));
                    (py "email", VStr (User.get_email (user self))) ]);
          (py "title", VStr (title self));
          (py "content", VStr (content self));
          (py "like_count", VSize (List.length (liked self)));
          (py "created_at", VTime (BaseModel._created_at (base self))) ].

Definition response (self : t) : outcome str := json_dumps (data self).

End Post.

Module Comment.

Record t := mk {
  base : BaseModel.t;
  user : User.t;
  content : str
}.

Definition init (now1 now2 : datetime) (user : User.t) (content : str) : t :=
  {| base := BaseModel.init now1 now2; user := user; content := content |}.

Definition get_user (self : t) : User.t := user self.
Definition get_content (self : t) : str := content self.

(** The dictionary passed to [json.dumps] by [response]. *)
Definition data (self : t) : value :=
  VDict [ (py "user",
            VDict [ (py "username", VStr (User.get_username (user self)));
                    (py "email", VStr (User.get_email (user self))) ]);
          (py "content", VStr (content self)) ].

Definition response (self : t) : outcome str := json_dumps (data self).

End Comment.

(** The four kinds of domain event, and their serialiser: the [response]
    method of the object's class. *)
Inductive event :=
| UserCreated (u : User.t)
| ProfileCreated (p : Profile.t)
| PostCreated (p : Post.t)
| CommentCreated (c : Comment.t).

Definition serialize (e : event) : outcome str :=
  match e with
  | UserCreated u => User.response u
  | ProfileCreated p => Profile.response p
  | PostCreated p => Post.response p
  | CommentCreated c => Comment.response c
  end.

(** The methods of the four classes, and the state of the object after a
    call.  [add_like] is the only one whose body assigns or mutates. *)
Module Method.

Inductive t :=
| get_username | get_email | created_at | update_at
| get_user | get_first_name | get_last_name | get_bio | get_contact
| get_title | get_like_count | get_content
| response
| add_like (u : User.t).

End Method.

Definition has_method (e : event) (m : Method.t) : bool :=
  match e, m with
  | UserCreated _,
    (Method.get_username | Method.get_email | Method.created_at
     | Method.update_at | Method.response) => true
  | ProfileCreated _,
    (Method.get_user | Method.get_first_name | Method.get_last_name
     | Method.get_bio | Method.get_contact | Method.response) => true
  | PostCreated _,
    (Method.get_user | Method.get_title | Method.get_like_count
     | Method.add_like _ | Method.response) => true
  | CommentCreated _,
    (Method.get_user | Method.get_content | Method.response) => true
  | _, _ => false
  end.

Definition after_call (e : event) (m : Method.t) : event :=
  match e, m with
  | PostCreated p, Method.add_like u => PostCreated (Post.add_like p u)
  | _, _ => e
  end.

Definition after_calls (e : event) (ms : list Method.t) : event :=
  fold_left after_call ms e.

Definition event_base (e : event) : BaseModel.t :=
  match e with
  | UserCreated u => User.base u
  | ProfileCreated p => Profile.base p
  | PostCreated p => Post.base p
  | CommentCreated c => Comment.base c
  end.

Definition creation_timestamp (e : event) : time :=
  BaseModel._created_at (event_base e).

(* ================================================================== *)
(** * controller.py *)
(* ================================================================== *)

(** The readings of [datetime.now()], in the order of the calls. *)
Definition clock := nat -> datetime.

(** What the broker does to a producer obtained from the module's [app]:
    the outcome of [app.get_producer()] with [__enter__], of
    [producer.produce(topic=, key=, value=)], and of [__exit__], which
    flushes. *)
Record producer_env := {
  get_producer : outcome unit;
  produce : value -> value -> value -> outcome unit;
  producer_exit : outcome unit
}.

(** [return json.dumps({'error': e})] *)
Definition error_json (e : exn) : M value :=
  s <- lift (json_dumps (VDict [(py "error", VExc e)])) ;;
  ret (VStr s).

Module SendToKafka.

Definition push (app : producer_env) (topic val key : value) : M value :=
  try_except
    (with_ (call GetProducer (get_producer app))
           (call ProducerExit (producer_exit app))
           (fun producer =>
              call (Produce topic key val) (produce app topic key val)) ;;;
     ret VNone)
    is_Exception
    error_json.

End SendToKafka.

Definition Abhijeet (now : clock) (n : nat) : User.t :=
  User.init (now n) (now (S n))
    (py "Abhijeet") (py "#include") (py "abhijeetkumar3015@gmail").

Module UserProduce.

Definition create_user (now : clock) : M value :=
  try_except
    (let value := Abhijeet now 0 in
     s <- lift (User.response value) ;;
     ret (VStr s))
    is_Exception
    error_json.

Definition send_to_kafka (app : producer_env) (now : clock)
    (topic key : value) : M value :=
  v <- create_user now ;;
  SendToKafka.push app topic v key ;;;
  ret VNone.

End UserProduce.

Module ProfileProduce.

Definition create_profile (now : clock) : M value :=
  try_except
    (let user := Abhijeet now 0 in
     let value :=
       Profile.init (now 2%nat) (now 3%nat) user
         (py "Abhijeet") (py "Kumar3015")
         (Some (py "This is my bio")) (Some 7079840969%Z) in
     s <- lift (Profile.response value) ;;
     ret (VStr s))
    is_Exception
    error_json.

Definition send_to_kafka (app : producer_env) (now : clock)
    (topic key : value) : M value :=
  v <- create_profile now ;;
  SendToKafka.push app topic v key ;;;
  ret VNone.

End ProfileProduce.

Module PostProduce.

(** The [try] block builds the post and ends without a [return]. *)
Definition create_post (now : clock) : M value :=
  try_except
    (let user := Abhijeet now 0 in
     let value :=
       Post.init (now 2%nat) (now 3%nat) user (py "post") (py "This is my post") in
     ret VNone)
    is_Exception
    error_json.

Definition send_to_kafka (app : producer_env) (now : clock)
    (topic key : value) : M value :=
  v <- create_post now ;;
  SendToKafka.push app topic v key ;;;
  ret VNone.

End PostProduce.

Module CommentProduce.

Definition make_comment (now : clock) : M value :=
  let user := Abhijeet now 0 in
  let value := Comment.init (now 2%nat) (now 3%nat) user (py "This is my comment") in
  s <- lift (Comment.response value) ;;
  ret (VStr s).

Definition send_to_kafka (app : producer_env) (now : clock)
    (topic key : value) : M value :=
  v <- make_comment now ;;
  SendToKafka.push app topic v key ;;;
  ret VNone.

End CommentProduce.

(* ================================================================== *)
(** * consumer.py *)
(* ================================================================== *)

(** A polled message: the outcome of [message.value()]. *)
Record message := { msg_value : outcome value }.

(** What the broker and the terminal do to the consumer: the outcome of
    [Application(...)], of [app.get_consumer()] with [__enter__], of
    [subscribe], of the [i]-th [poll], whether Ctrl-C interrupts the
    [i]-th [time.sleep], and the outcome of [__exit__], which closes the
    consumer. *)
Record consumer_env := {
  application : outcome unit;
  get_consumer : outcome unit;
  subscribe : outcome unit;
  poll : nat -> outcome (option message);
  interrupted : nat -> bool;
  consumer_exit : outcome unit
}.

Module Consumer.

Definition no_attribute_value : exn :=
  mkExn AttributeError (py "'NoneType' object has no attribute 'value'").

(** [message.value()] *)
Definition value_of (message : option message) : M value :=
  match message with
  | None => raise no_attribute_value
  | Some m => lift (msg_value m)
  end.

(** The two lines the loop prints. *)
Definition running : value := VStr (py "running consumer application.... ").
Definition waiting : value := VStr (py "Consumer is waiting for response : ").

(** The statements of the [try] block inside the loop. *)
Definition try_block (c : consumer_env) (i : nat) : M unit :=
  message <- call (Poll 1) (poll c i) ;;
  print [running] ;;;
  (match message with
   | None => print [waiting]
   | Some _ => ret tt
   end) ;;;
  v <- value_of message ;;
  print [v].

(** [print(f'error: {e} ')] *)
Definition log_error (e : exn) : M unit :=
  print [VStr (py "error: " ++ exc_str e ++ py " ")].

(** The [try] statement inside the loop. *)
Definition poll_and_print (c : consumer_env) (i : nat) : M unit :=
  try_except (try_block c i) is_Exception log_error.

(** The body of [while True]. *)
Definition iteration (c : consumer_env) (i : nat) : M unit :=
  poll_and_print c i ;;;
  sleep 10 (interrupted c i).

Definition setup_consumer (c : consumer_env) (fuel : nat) : M value :=
  lift (application c) ;;;
  try_except
    (with_ (call GetConsumer (get_consumer c))
           (call ConsumerExit (consumer_exit c))
           (fun consumer =>
              call (Subscribe [py "weather_data"]) (subscribe c) ;;;
              while_true (iteration c) fuel 0) ;;;
     ret VNone)
    is_Exception
    (fun e => print [VStr (py "error : "); VExc e] ;;; ret VNone).

(** The module calls [setup_consumer()] and ends.  The exit status of
    the interpreter: 0 after a normal end, 1 after an uncaught exception;
    after an uncaught [KeyboardInterrupt] the interpreter ends itself by
    SIGINT, which a shell shows as 130.  [None] while the loop runs. *)
Definition main (c : consumer_env) (fuel : nat) : list io * option Z :=
  match setup_consumer c fuel with
  | (t, Return _) => (t, Some 0%Z)
  | (t, Raise e) => (t, Some (if is_Exception e then 1%Z else 130%Z))
  | (t, Running) => (t, None)
  end.

End Consumer.

(* ================================================================== *)
(** * test_kafka.py *)
(* ================================================================== *)

(** An HTTP response: the outcome of [response.json()]. *)
Record http_response := { json : outcome value }.

(** The outcome of [requests.get(url, params=...)]. *)
Record http_env := { requests_get : outcome http_response }.

(** What the broker, the terminal and the interpreter do to the weather
    producer: the broker as it is at the [i]-th turn of the loop, whether
    Ctrl-C interrupts the [i]-th [time.sleep], and how many calls the
    recursion limit leaves to the encoder where the loop calls
    [json.dumps], beyond the two that every call of it may take. *)
Record weather_env := {
  producer_at : nat -> producer_env;
  sleep_cut : nat -> bool;
  nesting_room : nat
}.

Module TestKafka.

Definition forecast_url : str := py "https://api.open-meteo.com/v1/forecast".

Definition get_weather (h : http_env) : M value :=
  try_except
    (response <- call (HttpGet forecast_url) (requests_get h) ;;
     lift (json response))
    is_RequestException
    (fun e => ret (VExc e)).

Definition topic : value := VStr (py "weather_data").
Definition key : value := VStr (py "location").

(** The two lines the loop prints. *)
Definition pushing : value := VStr (py "push data into kafka :").
Definition pushed : value := VStr (py "Successfully push data into kafka : ").

(** The [with] statement of the loop: the producer is obtained first,
    then the arguments of [produce] are evaluated, [json.dumps(value)]
    among them. *)
Definition produce_weather (app : producer_env) (room : nat) (val : value)
    : M unit :=
  with_ (call GetProducer (get_producer app))
        (call ProducerExit (producer_exit app))
        (fun producer =>
           s <- lift (json_dumps_within room val) ;;
           call (Produce topic key (VStr s)) (produce app topic key (VStr s))).

(** The body of [while True]. *)
Definition turn (w : weather_env) (val : value) (i : nat) : M unit :=
  print [pushing] ;;;
  produce_weather (producer_at w i) (nesting_room w) val ;;;
  print [pushed] ;;;
  sleep 10 (sleep_cut w i).

Definition setup_producer (w : weather_env) (val : value) (fuel : nat) : M value :=
  try_except
    (while_true (turn w val) fuel 0 ;;; ret VNone)
    is_Exception
    (fun e => print [VStr (py "error : "); VExc e] ;;; ret VNone).

(** The module: [response=get_weather()], then
    [setup_producer(response)]; the exit status as for the consumer. *)
Definition main (h : http_env) (w : weather_env) (fuel : nat)
    : list io * option Z :=
  match (response <- get_weather h ;; setup_producer w response fuel) with
  | (t, Return _) => (t, Some 0%Z)
  | (t, Raise e) => (t, Some (if is_Exception e then 1%Z else 130%Z))
  | (t, Running) => (t, None)
  end.

End TestKafka.

(* ================================================================== *)
(** * solid_principle.py *)
(* ================================================================== *)

Module Solid.

(** [Vehicle.__init__]: the attributes every vehicle has. *)
Module Vehicle.

Record t := mk { make : str; model : str; year : Z }.

Definition init (make model : str) (year : Z) : t :=
  {| make := make; model := model; year := year |}.

End Vehicle.

(** [now] is the reading of [datetime.now()]. *)
Module Car.

Definition calculate_insurance (now : datetime) (self : Vehicle.t) : Z :=
  if (Py.year now - Vehicle.year self >? 5)%Z then 1000%Z else 500%Z.

Definition refuel : M unit := print [VStr (py "Refuel you vehicle")].

End Car.

Module Truck.

Definition calculate_insurance (now : datetime) (self : Vehicle.t) : Z :=
  if (Py.year now - Vehicle.year self >? 5)%Z then 2000%Z else 1000%Z.

Definition refuel : M unit := print [VStr (py "Refuel you vehicle")].

End Truck.

Module Bus.

Definition calculate_insurance (now : datetime) (self : Vehicle.t) : Z :=
  if (Py.year now - Vehicle.year self >? 10)%Z then 1500%Z else 1000%Z.

Definition refuel : M unit := print [VStr (py "Refuel you vehicle")].

End Bus.

Module MotorCycle.

Definition calculate_insurance (now : datetime) (self : Vehicle.t) : Z :=
  if (Py.year now - Vehicle.year self >? 10)%Z then 2500%Z else 1500%Z.

Definition recharge : M unit := print [VStr (py "recharge ")].

End MotorCycle.

(** An object of one of the four concrete classes, and the call
    [v.calculate_insurance()], which the class of [v] decides. *)
Inductive vehicle :=
| ACar (v : Vehicle.t)
| ATruck (v : Vehicle.t)
| ABus (v : Vehicle.t)
| AMotorCycle (v : Vehicle.t).

Definition calculate_insurance (now : datetime) (v : vehicle) : Z :=
  match v with
  | ACar self => Car.calculate_insurance now self
  | ATruck self => Truck.calculate_insurance now self
  | ABus self => Bus.calculate_insurance now self
  | AMotorCycle self => MotorCycle.calculate_insurance now self
  end.

Definition attributes (v : vehicle) : Vehicle.t :=
  match v with
  | ACar self | ATruck self | ABus self | AMotorCycle self => self
  end.

End Solid.

(* ================================================================== *)
(** * The web layer: core/models.py and jwt_auth/serializers.py *)
(* ================================================================== *)

Module Web.

(** ** Python objects and dictionaries *)

(** The objects that are passed as keyword arguments and request data. *)
Inductive obj :=
| ONone
| OBool (b : bool)
| OInt (z : Z)
| OStr (s : str).

(** The truth value of an object, as [not o] and [o or ...] take it. *)
Definition truthy (o : obj) : bool :=
  match o with
  | ONone => false
  | OBool b => b
  | OInt z => negb (z =? 0)%Z
  | OStr [] => false
  | OStr (_ :: _) => true
  end.

(** [o is True] *)
Definition is_True (o : obj) : bool :=
  match o with
  | OBool true => true
  | _ => false
  end.

(** [a == b]; a [bool] is the integer 0 or 1. *)
Definition py_eqb (a b : obj) : bool :=
  match a, b with
  | ONone, ONone => true
  | OStr s, OStr t => str_eqb s t
  | OBool x, OBool y => Bool.eqb x y
  | OInt x, OInt y => (x =? y)%Z
  | OBool x, OInt y | OInt y, OBool x => ((if x then 1 else 0) =? y)%Z
  | _, _ => false
  end.

(** A [dict] with [str] keys: its items in insertion order, no key
    twice. *)
Module Dict.

Section Ops.

Context {V : Type}.

Definition has_key (k : str) (kv : str * V) : bool := str_eqb (fst kv) k.

(** [d.get(k)] *)
Definition get (d : list (str * V)) (k : str) : option V :=
  match find (has_key k) d with
  | Some kv => Some (snd kv)
  | None => None
  end.

(** [d[k] = v] *)
Definition set (d : list (str * V)) (k : str) (v : V) : list (str * V) :=
  if existsb (has_key k) d
  then map (fun kv => if has_key k kv then (fst kv, v) else kv) d
  else d ++ [(k, v)].

(** [d.setdefault(k, v)]: the dictionary afterwards. *)
Definition setdefault (d : list (str * V)) (k : str) (v : V) : list (str * V) :=
  if existsb (has_key k) d then d else d ++ [(k, v)].

(** [d.pop(k)]: the value and the dictionary afterwards; [None] when the
    key is missing (a [KeyError]). *)
Definition pop (d : list (str * V)) (k : str) : option (V * list (str * V)) :=
  match get d k with
  | Some v => Some (v, filter (fun kv => negb (has_key k kv)) d)
  | None => None
  end.

End Ops.

End Dict.

(** [repr(k)] of a plain key, the text of a [KeyError]. *)
Definition key_error (k : string) : exn :=
  mkExn (Custom "KeyError") (py ("'" ++ k ++ "'")).

Definition value_error (msg : string) : exn := mkExn ValueError (py msg).

(** ** core/models.py *)

(** An instance of [CustomUser]: its email, user name and (hashed)
    password, and the other attributes given to the constructor. *)
Record user := mkUser {
  email : obj;
  user_name : obj;
  password : str;
  fields : list (str * obj)
}.

Definition with_password (u : user) (h : str) : user :=
  {| email := email u; user_name := user_name u; password := h;
     fields := fields u |}.

(** The values of the [attrs] of a login: the data of the request, and
    the user that [validate] adds. *)
Inductive item :=
| Data (o : obj)
| User (u : user).

(** What Django does: [normalize_email], whether the model's constructor
    takes the extra keyword arguments, [make_password] (the hash that
    [set_password] stores), [save], and [authenticate]. *)
Record django := {
  normalize_email : obj -> outcome obj;
  model_init : list (str * obj) -> outcome unit;
  make_password : obj -> outcome str;
  save : user -> outcome unit;
  authenticate : item -> item -> option user
}.

(** A computation of the web layer: the rows it gave to [save], in
    order, and its outcome. *)
Definition W (A : Type) : Type := list user * outcome A.

Definition wret {A} (a : A) : W A := ([], Ok a).
Definition wraise {A} (e : exn) : W A := ([], Err e).
Definition wlift {A} (o : outcome A) : W A := ([], o).

Definition wbind {A B} (m : W A) (k : A -> W B) : W B :=
  match m with
  | (rows, Ok a) => let (rows', r) := k a in (rows ++ rows', r)
  | (rows, Err e) => (rows, Err e)
  end.

(** [user.save()] *)
Definition call_save (dj : django) (u : user) : W unit := ([u], save dj u).

(** [user.set_password(raw)]: the user afterwards. *)
Definition set_password (dj : django) (u : user) (raw : obj) : W user :=
  wbind (wlift (make_password dj raw)) (fun h => wret (with_password u h)).

Module CustomUserManager.

Definition create_user (dj : django) (email user_name password : obj)
    (extra_kwargs : list (str * obj)) : W user :=
  if negb (truthy email) then wraise (value_error "Email is required")
  else if negb (truthy user_name) then wraise (value_error "Username is required")
  else
    wbind (wlift (normalize_email dj email)) (fun email =>
    wbind (wlift (model_init dj extra_kwargs)) (fun _ =>
    let user := {| email := email; user_name := user_name; password := [];
                   fields := extra_kwargs |} in
    wbind (set_password dj user password) (fun user =>
    wbind (call_save dj user) (fun _ =>
    wret user)))).

Definition create_superuser (dj : django) (email user_name password : obj)
    (extra_kwargs : list (str * obj)) : W user :=
  let extra_kwargs := Dict.setdefault extra_kwargs (py "is_staff") (OBool true) in
  let extra_kwargs := Dict.setdefault extra_kwargs (py "is_active") (OBool true) in
  let extra_kwargs := Dict.setdefault extra_kwargs (py "is_superuser") (OBool true) in
  if negb (match Dict.get extra_kwargs (py "is_staff") with
           | Some v => is_True v
           | None => false
           end)
  then wraise (value_error "Superuser must have is_staff=True.")
  else if negb (match Dict.get extra_kwargs (py "is_superuser") with
                | Some v => is_True v
                | None => false
                end)
  then wraise (value_error "Superuser must have is_superuser=True.")
  else create_user dj email user_name password extra_kwargs.

(** The text of the [TypeError] of a call that lacks required
    arguments. *)
Definition missing (names : string) : exn :=
  mkExn TypeError
    (py ("CustomUserManager.create_user() missing " ++ names)).

(** [create_user] called with the items of a dictionary as keyword
    arguments: they are bound to the parameters [email], [user_name] and
    [password], and the others go to [extra_kwargs]. *)
Definition create_user_kwargs (dj : django) (kwargs : list (str * obj)) : W user :=
  match Dict.pop kwargs (py "email"), Dict.get kwargs (py "user_name") with
  | None, None =>
      wraise (missing "2 required positional arguments: 'email' and 'user_name'")
  | None, Some _ => wraise (missing "1 required positional argument: 'email'")
  | Some _, None => wraise (missing "1 required positional argument: 'user_name'")
  | Some (email, k1), Some _ =>
      match Dict.pop k1 (py "user_name") with
      | None => wraise (missing "1 required positional argument: 'user_name'")
      | Some (user_name, k2) =>
          match Dict.pop k2 (py "password") with
          | Some (password, k3) => create_user dj email user_name password k3
          | None => create_user dj email user_name ONone k2
          end
      end
  end.

End CustomUserManager.

Module PostModel.

Record t := mk { title : option str; content : str }.

(** [self.title or self.content[:20]] *)
Definition __str__ (self : t) : str :=
  match title self with
  | Some (c :: s) => c :: s
  | _ => firstn 20 (content self)
  end.

End PostModel.

(** ** jwt_auth/serializers.py *)

Module RegistrationSerializer.

(** What [validate] returns: the attributes, or an exception object. *)
Inductive validated :=
| Attrs (attrs : list (str * obj))
| Returned (e : exn).

(** [serializers.ValidationError('Passwords must be similar ')].  The
    exception keeps the message as the list of one [ErrorDetail] with the
    code ['invalid'], and its [str] is the [repr] of that list. *)
Definition passwords_must_be_similar : exn :=
  mkExn (Custom "ValidationError")
    (py "[ErrorDetail(string='Passwords must be similar ', code='invalid')]").

Definition validate (attrs : list (str * obj)) : outcome validated :=
  match Dict.get attrs (py "password1") with
  | None => Err (key_error "password1")
  | Some p1 =>
      match Dict.get attrs (py "password2") with
      | None => Err (key_error "password2")
      | Some p2 =>
          if negb (py_eqb p1 p2)
          then Ok (Returned passwords_must_be_similar)
          else Ok (Attrs attrs)
      end
  end.

Definition create (dj : django) (validated_data : list (str * obj)) : W user :=
  match Dict.pop validated_data (py "password1") with
  | None => wraise (key_error "password1")
  | Some (password, d1) =>
      match Dict.pop d1 (py "password2") with
      | None => wraise (key_error "password2")
      | Some (_, d2) =>
          wbind (CustomUserManager.create_user_kwargs dj d2) (fun user =>
          wbind (set_password dj user password) (fun user =>
          wbind (call_save dj user) (fun _ =>
          wret user)))
      end
  end.

End RegistrationSerializer.

Module LoginSerializer.

(** [attrs.get(k)], which is [None] for a missing key. *)
Definition get_or_None (attrs : list (str * item)) (k : str) : item :=
  match Dict.get attrs k with
  | Some x => x
  | None => Data ONone
  end.

(** [serializers.ValidationError('Please enter correct email and
    password ')], with its [str] as above. *)
Definition wrong_email_or_password : exn :=
  mkExn (Custom "ValidationError")
    (py ("[ErrorDetail(string='Please enter correct email and password ', "
         ++ "code='invalid')]")).

Definition validate (dj : django) (attrs : list (str * item))
    : outcome (list (str * item)) :=
  let email := get_or_None attrs (py "email") in
  let password := get_or_None attrs (py "password") in
  match authenticate dj email password with
  | None => Err wrong_email_or_password
  | Some user => Ok (Dict.set attrs (py "user") (User user))
  end.

End LoginSerializer.

End Web.

(* ================================================================== *)
(** * Reading the wire format back *)
(* ================================================================== *)

Module Wire.

(** The repository has no reader for the messages it publishes: the
    consumer prints [message.value()] as it is.  This module is the
    reader that the specification calls [deserialize], for the JSON text
    that the [response] methods write: objects, strings, integers and
    [null], with white space between the tokens.  An object is read into
    a [dict], so a later occurrence of a key replaces the value of an
    earlier one.  The reader is written for the texts of [json.dumps]; on
    other texts it may accept more than a JSON parser does (a number with
    leading zeros, for one). *)

Definition is_ws (c : N) : bool :=
  ((c =? 32) || (c =? 9) || (c =? 10) || (c =? 13))%N.

Fixpoint skip_ws (s : str) : str :=
  match s with
  | c :: r => if is_ws c then skip_ws r else s
  | [] => []
  end.

Definition hex_val (c : N) : option N :=
  if ((48 <=? c) && (c <=? 57))%N then Some (c - 48)%N
  else if ((97 <=? c) && (c <=? 102))%N then Some (c - 87)%N
  else if ((65 <=? c) && (c <=? 70))%N then Some (c - 55)%N
  else None.

Definition hex4_val (a b c d : N) : option N :=
  match hex_val a, hex_val b, hex_val c, hex_val d with
  | Some x, Some y, Some z, Some w => Some (x * 4096 + y * 256 + z * 16 + w)%N
  | _, _, _, _ => None
  end.

Definition is_high_surrogate (n : N) : bool := ((55296 <=? n) && (n <? 56320))%N.
Definition is_low_surrogate (n : N) : bool := ((56320 <=? n) && (n <? 57344))%N.

Definition join_surrogates (hi lo : N) : N :=
  (65536 + (hi - 55296) * 1024 + (lo - 56320))%N.

(** The character a one-letter escape stands for. *)
Definition unescape (e : N) : option N :=
  if (e =? 34)%N then Some 34%N
  else if (e =? 92)%N then Some 92%N
  else if (e =? 47)%N then Some 47%N
  else if (e =? 98)%N then Some 8%N
  else if (e =? 102)%N then Some 12%N
  else if (e =? 110)%N then Some 10%N
  else if (e =? 114)%N then Some 13%N
  else if (e =? 116)%N then Some 9%N
  else None.

Definition push_char (c : N) (o : option (str * str)) : option (str * str) :=
  match o with
  | Some (s, rest) => Some (c :: s, rest)
  | None => None
  end.

(** The characters of a string up to its closing quote, and what follows
    the quote. *)
Fixpoint read_string (s : str) : option (str * str) :=
  match s with
  | [] => None
  | c :: r =>
      if (c =? 34)%N then Some ([], r)
      else if (c =? 92)%N then
        match r with
        | [] => None
        | e :: r1 =>
            if (e =? 117)%N then
              match r1 with
              | a :: b :: c' :: d :: r2 =>
                  match hex4_val a b c' d with
                  | None => None
                  | Some n =>
                      if is_high_surrogate n then
                        match r2 with
                        | bs :: u :: a2 :: b2 :: c2 :: d2 :: r3 =>
                            if ((bs =? 92) && (u =? 117))%N then
                              match hex4_val a2 b2 c2 d2 with
                              | None => None
                              | Some m =>
                                  if is_low_surrogate m
                                  then push_char (join_surrogates n m) (read_string r3)
                                  else push_char n (read_string r2)
                              end
                            else push_char n (read_string r2)
                        | _ => push_char n (read_string r2)
                        end
                      else push_char n (read_string r2)
                  end
              | _ => None
              end
            else
              match unescape e with
              | Some ch => push_char ch (read_string r1)
              | None => None
              end
        end
      else if (c <? 32)%N then None
      else push_char c (read_string r)
  end.

Definition is_digit (c : N) : bool := ((48 <=? c) && (c <=? 57))%N.

Definition digit (c : N) (d : Decimal.uint) : Decimal.uint :=
  if (c =? 48)%N then Decimal.D0 d
  else if (c =? 49)%N then Decimal.D1 d
  else if (c =? 50)%N then Decimal.D2 d
  else if (c =? 51)%N then Decimal.D3 d
  else if (c =? 52)%N then Decimal.D4 d
  else if (c =? 53)%N then Decimal.D5 d
  else if (c =? 54)%N then Decimal.D6 d
  else if (c =? 55)%N then Decimal.D7 d
  else if (c =? 56)%N then Decimal.D8 d
  else Decimal.D9 d.

(** The longest run of decimal digits at the head of [s]. *)
Fixpoint read_digits (s : str) : Decimal.uint * str :=
  match s with
  | c :: r =>
      if is_digit c then let (d, rest) := read_digits r in (digit c d, rest)
      else (Decimal.Nil, s)
  | [] => (Decimal.Nil, [])
  end.

Definition read_nat (s : str) : option (N * str) :=
  match read_digits s with
  | (Decimal.Nil, _) => None
  | (d, rest) => Some (N.of_uint d, rest)
  end.

(** [d[k] = v] *)
Definition dict_set (d : list (str * value)) (k : str) (v : value)
    : list (str * value) :=
  if existsb (fun kv => str_eqb (fst kv) k) d
  then map (fun kv => if str_eqb (fst kv) k then (fst kv, v) else kv) d
  else d ++ [(k, v)].

(** [read_value] reads one value at the head of the text; [read_members]
    reads the members of an object up to its closing brace into [acc].
    [fuel] bounds the number of values and members read. *)
Fixpoint read_value (fuel : nat) (s : str) : option (value * str) :=
  match fuel with
  | O => None
  | S fuel' =>
      match skip_ws s with
      | [] => None
      | c :: r =>
          if (c =? 123)%N then
            match skip_ws r with
            | [] => None
            | c' :: r' =>
                if (c' =? 125)%N then Some (VDict [], r')
                else read_members fuel' [] (c' :: r')
            end
          else if (c =? 34)%N then
            match read_string r with
            | Some (x, rest) => Some (VStr x, rest)
            | None => None
            end
          else if (c =? 110)%N then
            match r with
            | u :: l1 :: l2 :: rest =>
                if ((u =? 117) && (l1 =? 108) && (l2 =? 108))%N
                then Some (VNone, rest) else None
            | _ => None
            end
          else if (c =? 45)%N then
            match read_nat r with
            | Some (n, rest) => Some (VInt (- Z.of_N n), rest)
            | None => None
            end
          else
            match read_nat (c :: r) with
            | Some (n, rest) => Some (VInt (Z.of_N n), rest)
            | None => None
            end
      end
  end
with read_members (fuel : nat) (acc : list (str * value)) (s : str)
    : option (value * str) :=
  match fuel with
  | O => None
  | S fuel' =>
      match skip_ws s with
      | [] => None
      | c :: r =>
          if (c =? 34)%N then
            match read_string r with
            | None => None
            | Some (k, r1) =>
                match skip_ws r1 with
                | [] => None
                | c1 :: r2 =>
                    if (c1 =? 58)%N then
                      match read_value fuel' r2 with
                      | None => None
                      | Some (v, r3) =>
                          match skip_ws r3 with
                          | [] => None
                          | c3 :: r4 =>
                              if (c3 =? 44)%N
                              then read_members fuel' (dict_set acc k v) r4
                              else if (c3 =? 125)%N
                              then Some (VDict (dict_set acc k v), r4)
                              else None
                          end
                      end
                    else None
                end
            end
          else None
      end
  end.

Definition json_loads (s : str) : option value :=
  match read_value (S (List.length s)) s with
  | Some (v, rest) =>
      match skip_ws rest with
      | [] => Some v
      | _ :: _ => None
      end
  | None => None
  end.

(** Modelled from the spec: [deserialize], which the repository does not
    define.  It takes the serialised value of a message to the mapping
    from field names to values that the text denotes (the canonical
    encoding of the specification), by [json_loads]. *)
Definition deserialize (s : str) : option value := json_loads s.

(** Text made of Unicode scalar values: code points below 0x110000 that
    are no surrogates. *)
Definition scalar (c : N) : bool :=
  ((c <? 55296) || ((57343 <? c) && (c <? 1114112)))%N.

Definition text (s : str) : bool := forallb scalar s.

Fixpoint distinct (ks : list str) : bool :=
  match ks with
  | [] => true
  | k :: ks' => negb (existsb (str_eqb k) ks') && distinct ks'
  end.

(** The values [json.dumps] writes and the reader gives back: [None],
    integers within the limit on digits, text, and dictionaries of such
    values under distinct text keys. *)
Fixpoint jsonable (v : value) : bool :=
  match v with
  | VNone => true
  | VInt z => (digits z <=? int_max_str_digits)%nat
  | VStr s => text s
  | VDict items =>
      (fix all (l : list (str * value)) : bool :=
         match l with
         | [] => true
         | (k, x) :: l' => text k && jsonable x && all l'
         end) items
      && distinct (map fst items)
  | _ => false
  end.

(** The fuel that reading a value back takes. *)
Fixpoint size (v : value) : nat :=
  match v with
  | VDict items =>
      S ((fix sum (l : list (str * value)) : nat :=
            match l with
            | [] => O
            | (_, x) :: l' => S (size x + sum l')
            end) items)
  | _ => 1%nat
  end.

Fixpoint members_size (l : list (str * value)) : nat :=
  match l with
  | [] => O
  | (_, x) :: l' => S (size x + members_size l')
  end.

Fixpoint members_jsonable (l : list (str * value)) : bool :=
  match l with
  | [] => true
  | (k, x) :: l' => text k && jsonable x && members_jsonable l'
  end.

(** What may follow a number: anything but a digit. *)
Definition ends_number (s : str) : Prop :=
  match s with
  | c :: _ => is_digit c = false
  | [] => True
  end.

(** [v] is read back from its text, whatever follows it. *)
Definition reads_back (v : value) : Prop :=
  forall s fuel rest,
    jsonable v = true -> json_dumps v = Ok s ->
    (size v <= fuel)%nat -> ends_number rest ->
    read_value fuel (s ++ rest) = Some (v, rest).

End Wire.

(* ================================================================== *)
(** * Vocabulary of the properties *)
(* ================================================================== *)

(** ** Serialisation *)

(** The dictionary an event's [response] passes to [json.dumps]: the
    fields that go on the wire. *)
Definition event_data (e : event) : value :=
  match e with
  | UserCreated u => User.data u
  | ProfileCreated p => Profile.data p
  | PostCreated p => Post.data p
  | CommentCreated c => Comment.data c
  end.

(** [d.get(k)] *)
Definition dict_get (k : str) (d : value) : option value :=
  match d with
  | VDict items =>
      match find (fun kv => str_eqb (fst kv) k) items with
      | Some kv => Some (snd kv)
      | None => None
      end
  | _ => None
  end.

Definition is_post (e : event) : bool :=
  match e with
  | PostCreated _ => true
  | _ => false
  end.

(** Every string attribute that [response] writes is text. *)
Definition text_fields (e : event) : bool :=
  match e with
  | UserCreated u => Wire.text (User.username u) && Wire.text (User.email u)
  | ProfileCreated p =>
      Wire.text (User.username (Profile.user p))
      && Wire.text (User.email (Profile.user p))
      && Wire.text (Profile.first_name p) && Wire.text (Profile.last_name p)
      && match Profile.bio p with Some b => Wire.text b | None => true end
  | PostCreated p =>
      Wire.text (User.username (Post.user p))
      && Wire.text (User.email (Post.user p))
      && Wire.text (Post.title p) && Wire.text (Post.content p)
  | CommentCreated c =>
      Wire.text (User.username (Comment.user c))
      && Wire.text (User.email (Comment.user c))
      && Wire.text (Comment.content c)
  end.

(** The contact of a profile, when it has one, is within the limit of the
    interpreter on the digits of an [int] that is written. *)
Definition contact_fits (e : event) : bool :=
  match e with
  | ProfileCreated p =>
      match Profile.contact p with
      | Some z => (digits z <=? int_max_str_digits)%nat
      | None => true
      end
  | _ => true
  end.

(** A reader [d] gives every event back from its serialisation, with all
    its attributes. *)
Definition round_trips_every_event (d : str -> option event) : Prop :=
  forall e, exists s, serialize e = Ok s /\ d s = Some e.

(** A reader [d] finds the creation timestamp of every event in its
    serialisation. *)
Definition recovers_creation_timestamp (d : str -> option time) : Prop :=
  forall e, exists s, serialize e = Ok s /\ d s = Some (creation_timestamp e).

(** Two users that agree on everything but, possibly, the password. *)
Definition same_but_password (u1 u2 : User.t) : Prop :=
  User.base u1 = User.base u2
  /\ User.username u1 = User.username u2
  /\ User.email u1 = User.email u2.

(** Two events with a user reference that agree on everything but,
    possibly, the password of the referenced user. *)
Definition differ_only_in_password (e1 e2 : event) : Prop :=
  match e1, e2 with
  | ProfileCreated p1, ProfileCreated p2 =>
      same_but_password (Profile.user p1) (Profile.user p2)
      /\ Profile.base p1 = Profile.base p2
      /\ Profile.first_name p1 = Profile.first_name p2
      /\ Profile.last_name p1 = Profile.last_name p2
      /\ Profile.bio p1 = Profile.bio p2
      /\ Profile.contact p1 = Profile.contact p2
  | PostCreated p1, PostCreated p2 =>
      same_but_password (Post.user p1) (Post.user p2)
      /\ Post.base p1 = Post.base p2
      /\ Post.title p1 = Post.title p2
      /\ Post.content p1 = Post.content p2
      /\ Post.liked p1 = Post.liked p2
  | CommentCreated c1, CommentCreated c2 =>
      same_but_password (Comment.user c1) (Comment.user c2)
      /\ Comment.base c1 = Comment.base c2
      /\ Comment.content c1 = Comment.content c2
  | _, _ => False
  end.

(** The user an event refers to. *)
Definition referenced_user (e : event) : option User.t :=
  match e with
  | UserCreated _ => None
  | ProfileCreated p => Some (Profile.user p)
  | PostCreated p => Some (Post.user p)
  | CommentCreated c => Some (Comment.user c)
  end.

(** The public part of a user, as the events embed it. *)
Definition public_user (u : User.t) : value :=
  VDict [ (py "username", VStr (User.username u));
          (py "email", VStr (User.email u)) ].

(** ** Mutation *)

(** No method changes the event. *)
Definition immutable (e : event) : Prop :=
  forall m, has_method e m = true -> after_call e m = e.

Definition is_add_like (m : Method.t) : bool :=
  match m with
  | Method.add_like _ => true
  | _ => false
  end.

(** The number of likes of a post event; 0 for the other events. *)
Definition like_count (e : event) : Z :=
  match e with
  | PostCreated p => Post.get_like_count p
  | _ => 0%Z
  end.

(** The attributes of an event other than the list of likes. *)
Definition without_likes (e : event) : event :=
  match e with
  | PostCreated p =>
      PostCreated {| Post.base := Post.base p; Post.user := Post.user p;
                     Post.title := Post.title p; Post.content := Post.content p;
                     Post.liked := [] |}
  | _ => e
  end.

(** ** The consumer loop *)

(** The exception, if any, that the [i]-th poll or the processing of its
    message raises. *)
Definition poll_error (c : consumer_env) (i : nat) (e : exn) : Prop :=
  poll c i = Err e.

Definition processing_error (c : consumer_env) (i : nat) (e : exn) : Prop :=
  exists m, poll c i = Ok (Some m) /\ msg_value m = Err e.

(** Cancellation is a [KeyboardInterrupt]: raised by a poll, by
    [message.value()], or in a sleep.  [no_cancel c n]: none in the first
    [n] iterations. *)
Definition no_cancel_at (c : consumer_env) (i : nat) : bool :=
  negb (interrupted c i)
  && match poll c i with
     | Err e => is_Exception e
     | Ok None => true
     | Ok (Some m) =>
         match msg_value m with
         | Err e => is_Exception e
         | Ok _ => true
         end
     end.

Definition no_cancel (c : consumer_env) (n : nat) : bool :=
  forallb (no_cancel_at c) (seq 0 n).

Definition is_sleep (ev : io) : bool :=
  match ev with
  | Sleep _ => true
  | _ => false
  end.

Definition is_poll (ev : io) : bool :=
  match ev with
  | Poll _ => true
  | _ => false
  end.

Definition is_produce (ev : io) : bool :=
  match ev with
  | Produce _ _ _ => true
  | _ => false
  end.

(** The process has ended with a status other than 0. *)
Definition exits_nonzero (r : list io * option Z) : Prop :=
  exists code, snd r = Some code /\ code <> 0%Z.

(** ** Publishing *)

(** What leaves the [with] statement of [push]: the failure to get a
    producer; otherwise the failure of the flush in [__exit__], which
    replaces a pending one; otherwise the outcome of [produce]. *)
Definition publish_outcome (app : producer_env) (topic val key : value)
    : outcome unit :=
  match get_producer app with
  | Err e => Err e
  | Ok _ =>
      match producer_exit app with
      | Err e => Err e
      | Ok _ => produce app topic key val
      end
  end.

(** ** The fetch *)

(** The outcome of the two calls [get_weather] makes. *)
Definition fetch (h : http_env) : outcome value :=
  match requests_get h with
  | Ok r => json r
  | Err e => Err e
  end.

(** Whenever the fetch fails, [get_weather] returns the exception as its
    value. *)
Definition failure_is_returned (h : http_env) : Prop :=
  forall e, fetch h = Err e -> snd (TestKafka.get_weather h) = Return (VExc e).

(** ** The weather producer *)

(** The [i]-th turn of the loop of [setup_producer] publishes the text
    [s] without failure, and its sleep is not interrupted. *)
Definition turn_ok (w : weather_env) (s : str) (i : nat) : bool :=
  negb (sleep_cut w i)
  && match publish_outcome (producer_at w i) TestKafka.topic (VStr s) TestKafka.key with
     | Ok _ => true
     | Err _ => false
     end.

Definition turns_ok (w : weather_env) (s : str) (n : nat) : bool :=
  forallb (turn_ok w s) (seq 0 n).

(** The trace of a turn that publishes [s]. *)
Definition full_turn (s : str) : list io :=
  [ Print [TestKafka.pushing]; GetProducer;
    Produce TestKafka.topic TestKafka.key (VStr s); ProducerExit;
    Print [TestKafka.pushed]; Sleep 10 ].

(** The trace of a turn whose publish fails: it ends in the [with]
    statement. *)
Definition failed_turn (app : producer_env) (s : str) : list io :=
  Print [TestKafka.pushing]
  :: match get_producer app with
     | Ok _ => [GetProducer; Produce TestKafka.topic TestKafka.key (VStr s); ProducerExit]
     | Err _ => [GetProducer]
     end.

(** ** The pace of the consumer *)

Definition is_poll_or_sleep (ev : io) : bool := is_poll ev || is_sleep ev.

(** A sequence of polls and sleeps that starts with a poll, in which a
    sleep follows every poll but possibly the last and a poll every
    sleep, every poll with a timeout of 1 and every sleep of 10. *)
Fixpoint alternates (t : list io) : bool :=
  match t with
  | [] => true
  | Poll p :: t' =>
      (p =? 1)%Z
      && match t' with
         | [] => true
         | Sleep d :: t'' => (d =? 10)%Z && alternates t''
         | _ => false
         end
  | _ => false
  end.

(** ** Text *)

(** A printable ASCII character. *)
Definition printable (c : N) : bool := ((32 <=? c) && (c <=? 126))%N.

(** ** Vehicles *)

(** Two vehicles of the same concrete class. *)
Definition same_class (v v' : Solid.vehicle) : bool :=
  match v, v' with
  | Solid.ACar _, Solid.ACar _
  | Solid.ATruck _, Solid.ATruck _
  | Solid.ABus _, Solid.ABus _
  | Solid.AMotorCycle _, Solid.AMotorCycle _ => true
  | _, _ => false
  end.

(** The age [calculate_insurance] computes. *)
Definition age (now : datetime) (v : Solid.vehicle) : Z :=
  (Py.year now - Solid.Vehicle.year (Solid.attributes v))%Z.

(** ** Superusers *)

(** A flag that [create_superuser] accepts: absent, or [True]. *)
Definition flag_ok (kwargs : list (str * Web.obj)) (k : string) : bool :=
  match Web.Dict.get kwargs (py k) with
  | Some v => Web.is_True v
  | None => true
  end.

(* ================================================================== *)
(** * Sample inputs *)
(* ================================================================== *)

Module Sample.

Definition morning : datetime := mkDatetime 2024 5 17 (mkTime 9 30 0 0).
Definition evening : datetime := mkDatetime 2024 5 17 (mkTime 21 45 10 250).

Definition at_morning : clock := fun _ => morning.

Definition alice : User.t :=
  User.init morning morning (py "alice") (py "secret") (py "a@x.com").

(** [alice] with another password. *)
Definition alice' : User.t :=
  User.init morning morning (py "alice") (py "hunter2") (py "a@x.com").

(** [alice] created in the evening. *)
Definition alice_late : User.t :=
  User.init evening evening (py "alice") (py "secret") (py "a@x.com").

(** A user whose name is the two surrogates of U+1F600, and a user whose
    name is that character. *)
Definition surrogates : User.t :=
  User.init morning morning [55357; 56832]%N (py "secret") (py "s@x.com").

Definition astral : User.t :=
  User.init morning morning [128512]%N (py "secret") (py "s@x.com").

Definition profile (u : User.t) : Profile.t :=
  Profile.init morning morning u (py "Alice") (py "Liddell")
    (Some (py "down the rabbit hole")) (Some 7079840969%Z).

(** The [int] that is written with the digits [d]; [n] times the digit
    9; the digit 1 before [n] times the digit 0, that is [10 ** n]. *)
Definition number (d : Decimal.uint) : Z := Z.of_N (N.of_uint d).

Definition nines (n : nat) : Decimal.uint := Nat.iter n Decimal.D9 Decimal.Nil.

Definition one_and_zeros (n : nat) : Decimal.uint :=
  Decimal.D1 (Nat.iter n Decimal.D0 Decimal.Nil).

(** A profile whose contact has 4301 digits. *)
Definition long_contact : Profile.t :=
  Profile.init morning morning alice (py "Alice") (py "Liddell")
    None (Some (number (one_and_zeros 4300))).

Definition hello (u : User.t) : Post.t :=
  Post.init morning morning u (py "hello") (py "world").

Definition comment (u : User.t) : Comment.t :=
  Comment.init morning morning u (py "nice").

(** [s] between double quotes. *)
Definition quoted (s : string) : str := 34%N :: py s ++ [34%N].

Definition kafka_down : exn := mkExn KafkaException (py "broker unreachable").

(** A broker that takes every message. *)
Definition accepting : producer_env :=
  {| get_producer := Ok tt;
     produce := fun _ _ _ => Ok tt;
     producer_exit := Ok tt |}.

(** A broker that gives no producer. *)
Definition acquire_fails : producer_env :=
  {| get_producer := Err kafka_down;
     produce := fun _ _ _ => Ok tt;
     producer_exit := Ok tt |}.

(** A producer whose [produce] raises. *)
Definition produce_fails : producer_env :=
  {| get_producer := Ok tt;
     produce := fun _ _ _ => Err kafka_down;
     producer_exit := Ok tt |}.

(** A producer whose flush, in [__exit__], raises. *)
Definition flush_fails : producer_env :=
  {| get_producer := Ok tt;
     produce := fun _ _ _ => Ok tt;
     producer_exit := Err kafka_down |}.

(** A consumer whose polls all time out. *)
Definition empty_polls : consumer_env :=
  {| application := Ok tt;
     get_consumer := Ok tt;
     subscribe := Ok tt;
     poll := fun _ => Ok None;
     interrupted := fun _ => false;
     consumer_exit := Ok tt |}.

Definition decode_error : exn := mkExn ValueError (py "bad payload").

(** A consumer whose first poll raises, whose second poll gives a message
    that cannot be read, and whose later polls give the message
    [21]. *)
Definition flaky : consumer_env :=
  {| application := Ok tt;
     get_consumer := Ok tt;
     subscribe := Ok tt;
     poll := fun i =>
       match i with
       | O => Err kafka_down
       | S O => Ok (Some {| msg_value := Err decode_error |})
       | _ => Ok (Some {| msg_value := Ok (VInt 21) |})
       end;
     interrupted := fun _ => false;
     consumer_exit := Ok tt |}.

(** A consumer whose subscription is refused. *)
Definition subscribe_fails : consumer_env :=
  {| application := Ok tt;
     get_consumer := Ok tt;
     subscribe := Err kafka_down;
     poll := fun _ => Ok None;
     interrupted := fun _ => false;
     consumer_exit := Ok tt |}.

Definition too_deep : exn :=
  mkExn RecursionError (py "maximum recursion depth exceeded").

(** An endpoint that answers with a body nested too deeply for
    [response.json()]. *)
Definition nested_body : http_env :=
  {| requests_get := Ok {| json := Err too_deep |} |}.

Definition unreachable : exn :=
  mkExn RequestsConnectionError (py "Max retries exceeded").

(** An endpoint that cannot be reached. *)
Definition offline : http_env := {| requests_get := Err unreachable |}.


(** A broker that gives no consumer. *)
Definition no_consumer : consumer_env :=
  {| application := Ok tt;
     get_consumer := Err kafka_down;
     subscribe := Ok tt;
     poll := fun _ => Ok None;
     interrupted := fun _ => false;
     consumer_exit := Ok tt |}.

(** [v] inside [n] dictionaries. *)
Fixpoint nested (n : nat) (v : value) : value :=
  match n with
  | O => v
  | S n' => VDict [(py "a", nested n' v)]
  end.

(** A reading of the weather endpoint. *)
Definition reading : value :=
  VDict [ (py "latitude", VFloat (Finite (py "51.1")));
          (py "timezone", VStr (py "GMT"));
          (py "current",
           VDict [ (py "interval", VInt 900);
                   (py "temperature_2m", VFloat (Finite (py "14.2"))) ]) ].

(** The text [json.dumps] writes for [reading]. *)
Definition reading_text : str :=
  py "{" ++ quoted "latitude" ++ py ": 51.1, " ++ quoted "timezone" ++ py ": "
    ++ quoted "GMT" ++ py ", " ++ quoted "current" ++ py ": {"
    ++ quoted "interval" ++ py ": 900, " ++ quoted "temperature_2m"
    ++ py ": 14.2}}".

(** The text of [alice]. *)
Definition alice_text : str :=
  py "{" ++ quoted "username" ++ py ": " ++ quoted "alice" ++ py ", "
    ++ quoted "email" ++ py ": " ++ quoted "a@x.com" ++ py "}".

(** A broker that takes the weather at every turn, no Ctrl-C, and the
    room that CPython 3.11 leaves to a function of a script, with its
    default recursion limit of 1000. *)
Definition steady : weather_env :=
  {| producer_at := fun _ => accepting;
     sleep_cut := fun _ => false;
     nesting_room := 992 |}.

(** A broker that takes the weather twice and whose [produce] raises at
    the third turn. *)
Definition failing_later : weather_env :=
  {| producer_at := fun i => if Nat.ltb i 2 then accepting else produce_fails;
     sleep_cut := fun _ => false;
     nesting_room := 992 |}.

Definition late : datetime := mkDatetime 2034 5 17 (mkTime 9 30 0 0).

Definition corolla : Solid.vehicle :=
  Solid.ACar (Solid.Vehicle.init (py "Toyota") (py "Corolla") 2020).

(** A Django that normalizes nothing, takes every field and every row,
    and whose hash of a password is the password after a prefix. *)
Definition django : Web.django :=
  {| Web.normalize_email := fun email => Ok email;
     Web.model_init := fun _ => Ok tt;
     Web.make_password := fun raw =>
       match raw with
       | Web.OStr s => Ok (py "pbkdf2$" ++ s)
       | _ => Ok (py "!")
       end;
     Web.save := fun _ => Ok tt;
     Web.authenticate := fun _ _ => None |}.

(** The validated data of a registration. *)
Definition signup : list (str * Web.obj) :=
  [ (py "user_name", Web.OStr (py "alice"));
    (py "email", Web.OStr (py "a@x.com"));
    (py "password1", Web.OStr (py "secret"));
    (py "password2", Web.OStr (py "secret")) ].

(** The row of [signup], with the hash of a password. *)
Definition row (hash : string) : Web.user :=
  {| Web.email := Web.OStr (py "a@x.com");
     Web.user_name := Web.OStr (py "alice");
     Web.password := py hash;
     Web.fields := [] |}.

(** A superuser as [create_superuser] saves it when called without
    flags. *)
Definition root : Web.user :=
  {| Web.email := Web.OStr (py "root@x.com");
     Web.user_name := Web.OStr (py "root");
     Web.password := py "pbkdf2$toor";
     Web.fields := [ (py "is_staff", Web.OBool true);
                     (py "is_active", Web.OBool true);
                     (py "is_superuser", Web.OBool true) ] |}.

End Sample.

(* ================================================================== *)
(** * The model on concrete inputs *)
(* ================================================================== *)

Example alice_on_the_wire :
  User.response Sample.alice
  = Ok (py "{" ++ Sample.quoted "username" ++ py ": " ++ Sample.quoted "alice"
          ++ py ", " ++ Sample.quoted "email" ++ py ": " ++ Sample.quoted "a@x.com"
          ++ py "}").
Proof. reflexivity. Qed.

(** A quote, a backslash, a line feed, two characters of the basic plane,
    one above it, and DEL. *)
Example escapes_of_json_dumps :
  json_dumps (VStr [97; 34; 92; 10; 233; 8364; 128512; 127]%N)
  = Ok ([34; 97; 92; 34; 92; 92]%N
          ++ py "\n\u00e9\u20ac\ud83d\ude00\u007f" ++ [34%N]).
Proof. reflexivity. Qed.

Example weather_on_the_wire :
  json_dumps Sample.reading = Ok Sample.reading_text.
Proof. reflexivity. Qed.

Example constants_and_lists_of_json_dumps :
  json_dumps (VList [ VBool true; VBool false; VNone; VFloat NaN;
                      VFloat (Infinity true); VFloat (Finite (py "1e+22"));
                      VList []; VDict [] ])
  = Ok (py "[true, false, null, NaN, -Infinity, 1e+22, [], {}]").
Proof. reflexivity. Qed.

(** With room for three calls the encoder opens three dictionaries and
    not four, the innermost being empty or not; it reports an unknown
    object inside one dictionary, and reaches the limit when it tries to
    inside two or three. *)
Example recursion_limit_of_json_dumps :
  encode 3 (Sample.nested 3 (VInt 1))
  = Ok (py "{" ++ Sample.quoted "a" ++ py ": {" ++ Sample.quoted "a"
          ++ py ": {" ++ Sample.quoted "a" ++ py ": 1}}}")
  /\ encode 3 (Sample.nested 4 (VInt 1))
     = Err (recursion_error " while encoding a JSON object")
  /\ encode 3 (Sample.nested 3 (VDict []))
     = Err (recursion_error " while encoding a JSON object")
  /\ encode 3 (Sample.nested 1 (VExc Sample.kafka_down))
     = Err (not_serializable "KafkaException")
  /\ encode 3 (Sample.nested 2 (VExc Sample.kafka_down))
     = Err (recursion_error " while calling a Python object")
  /\ encode 3 (Sample.nested 3 (VExc Sample.kafka_down))
     = Err (recursion_error EmptyString).
Proof. repeat apply conj; reflexivity. Qed.

Example integers_of_json_dumps :
  json_dumps (VInt (-70)) = Ok (py "-70")
  /\ json_dumps (VInt 0) = Ok (py "0")
  /\ json_dumps (VInt 7079840969) = Ok (py "7079840969").
Proof. repeat split. Qed.

Example comment_on_the_wire :
  Comment.response (Sample.comment Sample.alice)
  = Ok (py "{" ++ Sample.quoted "user" ++ py ": {"
          ++ Sample.quoted "username" ++ py ": " ++ Sample.quoted "alice" ++ py ", "
          ++ Sample.quoted "email" ++ py ": " ++ Sample.quoted "a@x.com" ++ py "}, "
          ++ Sample.quoted "content" ++ py ": " ++ Sample.quoted "nice" ++ py "}").
Proof. reflexivity. Qed.

Example post_does_not_serialize :
  Post.response (Sample.hello Sample.alice)
  = Err (mkExn TypeError (py "Object of type time is not JSON serializable")).
Proof. reflexivity. Qed.

(** White space between the tokens, and a key given twice. *)
Example reader_on_hand_written_text :
  Wire.json_loads
    (py "{ " ++ Sample.quoted "a" ++ py " : 1 , " ++ Sample.quoted "b"
       ++ py ":{}, " ++ Sample.quoted "a" ++ py ": null} ")
  = Some (VDict [(py "a", VNone); (py "b", VDict [])]).
Proof. reflexivity. Qed.

Example reader_rejects_a_lone_sign :
  Wire.json_loads (py "-") = None.
Proof. reflexivity. Qed.

Example user_is_published :
  UserProduce.send_to_kafka Sample.accepting Sample.at_morning (VStr (py "users")) VNone
  = ([GetProducer;
      Produce (VStr (py "users")) VNone
        (VStr (py "{" ++ Sample.quoted "username" ++ py ": "
                 ++ Sample.quoted "Abhijeet" ++ py ", " ++ Sample.quoted "email"
                 ++ py ": " ++ Sample.quoted "abhijeetkumar3015@gmail" ++ py "}"));
      ProducerExit],
     Return VNone).
Proof. reflexivity. Qed.

Example message_is_printed :
  Consumer.iteration Sample.flaky 2
  = ([Poll 1; Print [Consumer.running]; Print [VInt 21]; Sleep 10], Return tt).
Proof. reflexivity. Qed.

Example get_weather_offline :
  TestKafka.get_weather Sample.offline
  = ([HttpGet TestKafka.forecast_url], Return (VExc Sample.unreachable)).
Proof. reflexivity. Qed.

(* ================================================================== *)
(** * The consumer loop: empty polls, errors, start-up *)
(* ================================================================== *)

Section ConsumerLoop.

Variable c : consumer_env.

Lemma try_block_empty i :
  poll c i = Ok None ->
  Consumer.try_block c i
  = ([Poll 1; Print [Consumer.running]; Print [Consumer.waiting]],
     Raise Consumer.no_attribute_value).
Proof.
  intros Hp. unfold Consumer.try_block. rewrite Hp. reflexivity.
Qed.

Lemma try_block_poll_error i e :
  poll c i = Err e ->
  Consumer.try_block c i = ([Poll 1], Raise e).
Proof.
  intros Hp. unfold Consumer.try_block. rewrite Hp. reflexivity.
Qed.

Lemma try_block_processing_error i m e :
  poll c i = Ok (Some m) -> msg_value m = Err e ->
  Consumer.try_block c i = ([Poll 1; Print [Consumer.running]], Raise e).
Proof.
  intros Hp Hv. unfold Consumer.try_block. rewrite Hp. cbn. rewrite Hv. reflexivity.
Qed.

Lemma try_block_message i m v :
  poll c i = Ok (Some m) -> msg_value m = Ok v ->
  Consumer.try_block c i
  = ([Poll 1; Print [Consumer.running]; Print [v]], Return tt).
Proof.
  intros Hp Hv. unfold Consumer.try_block. rewrite Hp. cbn. rewrite Hv. reflexivity.
Qed.

(** An exception of the [try] block that is an [Exception] is printed and
    the iteration ends with the sleep. *)
Lemma iteration_after_error i t e :
  Consumer.try_block c i = (t, Raise e) ->
  is_Exception e = true ->
  interrupted c i = false ->
  Consumer.iteration c i
  = (t ++ [Print [VStr (py "error: " ++ exc_str e ++ py " ")]; Sleep 10], Return tt).
Proof.
  intros Hb He Hi.
  unfold Consumer.iteration, Consumer.poll_and_print, try_except.
  rewrite Hb, He, Hi. cbn. rewrite <- app_assoc. reflexivity.
Qed.

(** Without Ctrl-C an iteration ends normally, whatever was polled. *)
Lemma iteration_returns i :
  no_cancel_at c i = true ->
  snd (Consumer.iteration c i) = Return tt.
Proof.
  unfold no_cancel_at. intros H.
  apply andb_prop in H. destruct H as [Hi Hp].
  apply negb_true_iff in Hi.
  unfold Consumer.iteration, Consumer.poll_and_print, Consumer.try_block, try_except.
  rewrite Hi.
  destruct (poll c i) as [[m|]|e]; cbn.
  - destruct (msg_value m) as [v|e]; cbn; [reflexivity|].
    rewrite Hp. reflexivity.
  - reflexivity.
  - rewrite Hp. reflexivity.
Qed.

(** An iteration makes one poll, of timeout 1, and this is its first
    call. *)
Lemma iteration_polls_once i :
  exists rest,
    fst (Consumer.iteration c i) = Poll 1 :: rest /\ filter is_poll rest = [].
Proof.
  unfold Consumer.iteration, Consumer.poll_and_print, Consumer.try_block, try_except.
  destruct (poll c i) as [[m|]|e]; cbn.
  - destruct (msg_value m) as [v|e]; cbn.
    + eexists. split; reflexivity.
    + destruct (is_Exception e); cbn; eexists; split; reflexivity.
  - eexists. split; reflexivity.
  - destruct (is_Exception e); cbn; eexists; split; reflexivity.
Qed.

(** An iteration that ends sleeps once, and for 10. *)
Lemma iteration_sleeps_10 i :
  snd (Consumer.iteration c i) = Return tt ->
  filter is_sleep (fst (Consumer.iteration c i)) = [Sleep 10].
Proof.
  unfold Consumer.iteration, Consumer.poll_and_print, Consumer.try_block, try_except.
  destruct (poll c i) as [[m|]|e]; cbn.
  - destruct (msg_value m) as [v|e]; cbn.
    + destruct (interrupted c i); cbn; [discriminate|reflexivity].
    + destruct (is_Exception e); cbn; [|discriminate].
      destruct (interrupted c i); cbn; [discriminate|reflexivity].
  - destruct (interrupted c i); cbn; [discriminate|reflexivity].
  - destruct (is_Exception e); cbn; [|discriminate].
    destruct (interrupted c i); cbn; [discriminate|reflexivity].
Qed.

End ConsumerLoop.

(** A [while True] whose first [n] iterations end normally is still
    running after them, and has made their calls in order. *)
Lemma while_true_running body n : forall i,
  (forall j, i <= j < i + n -> snd (body j) = Return tt) ->
  while_true body n i = (flat_map (fun j => fst (body j)) (seq i n), Running).
Proof.
  induction n as [|n IH]; intros i Hbody; [reflexivity|].
  cbn [while_true seq flat_map].
  assert (Hi : snd (body i) = Return tt) by (apply Hbody; lia).
  destruct (body i) as [t r] eqn:Hb. cbn in Hi. subst r.
  unfold bind. rewrite IH by (intros j Hj; apply Hbody; lia).
  reflexivity.
Qed.

Lemma no_cancel_before c n i :
  no_cancel c n = true -> i < n -> no_cancel_at c i = true.
Proof.
  unfold no_cancel. rewrite forallb_forall. intros H Hi.
  apply H. apply in_seq. lia.
Qed.

Lemma no_cancel_poll_error c i e :
  no_cancel_at c i = true -> poll_error c i e ->
  is_Exception e = true /\ interrupted c i = false.
Proof.
  unfold no_cancel_at, poll_error. intros H Hp. rewrite Hp in H.
  apply andb_prop in H. destruct H as [Hi He].
  apply negb_true_iff in Hi. auto.
Qed.

Lemma no_cancel_processing_error c i e :
  no_cancel_at c i = true -> processing_error c i e ->
  is_Exception e = true /\ interrupted c i = false.
Proof.
  unfold no_cancel_at, processing_error. intros H (m & Hp & Hv).
  rewrite Hp, Hv in H.
  apply andb_prop in H. destruct H as [Hi He].
  apply negb_true_iff in Hi. auto.
Qed.

(** Once the consumer is subscribed, a loop that is still running keeps
    [setup_consumer], and the process, running. *)
Lemma main_running c n t :
  application c = Ok tt -> get_consumer c = Ok tt -> subscribe c = Ok tt ->
  while_true (Consumer.iteration c) n 0 = (t, Running) ->
  Consumer.main c n = (GetConsumer :: Subscribe [py "weather_data"] :: t, None).
Proof.
  intros Ha Hg Hs Hloop.
  unfold Consumer.main, Consumer.setup_consumer, with_, try_except, bind, lift, call.
  rewrite Ha, Hg, Hs, Hloop. reflexivity.
Qed.

(** C1, evaluated on polls that time out.  The claim: an empty poll emits
    the "waiting" diagnostic, raises no error and is not handled as one,
    and the loop goes on.  The code: after the diagnostic the [try] block
    calls [message.value()] on [None]; the [AttributeError] is caught by
    the handler of the loop and printed as an error, in each of three
    consecutive empty polls.  The loop does go on. *)
Theorem empty_poll_is_caught_as_an_error :
  let running := Print [Consumer.running] in
  let waiting := Print [Consumer.waiting] in
  let error :=
    Print [VStr (py "error: 'NoneType' object has no attribute 'value' ")] in
  let cycle := [Poll 1; running; waiting; error; Sleep 10] in
  Consumer.try_block Sample.empty_polls 0
  = ([Poll 1; running; waiting], Raise Consumer.no_attribute_value)
  /\ is_Exception Consumer.no_attribute_value = true
  /\ Consumer.poll_and_print Sample.empty_polls 0
     = ([Poll 1; running; waiting; error], Return tt)
  /\ Consumer.main Sample.empty_polls 3
     = (GetConsumer :: Subscribe [py "weather_data"] :: cycle ++ cycle ++ cycle,
        None).
Proof.
  cbv zeta. repeat split.
Qed.

(** C4: in a consumer that has subscribed, as long as no cancellation
    (Ctrl-C) occurs, the process is still running after any number [n] of
    iterations of the loop, and what it has done by then is to get the
    consumer, to subscribe once, and to make the [n] iterations one after
    the other.  Each iteration starts with a poll and sleeps once, for
    10; an iteration [i] whose poll raises an error [e], or whose message
    raises [e] when it is processed, catches [e], prints it and sleeps
    for 10 before the next iteration polls again. *)
Theorem errors_back_off_and_the_loop_continues (c : consumer_env) (n : nat) :
  no_cancel c n = true ->
  (application c = Ok tt -> get_consumer c = Ok tt -> subscribe c = Ok tt ->
   Consumer.main c n
   = (GetConsumer :: Subscribe [py "weather_data"]
        :: flat_map (fun i => fst (Consumer.iteration c i)) (seq 0 n),
      None))
  /\ (forall i e, i < n -> poll_error c i e ->
        Consumer.iteration c i
        = ([Poll 1; Print [VStr (py "error: " ++ exc_str e ++ py " ")]; Sleep 10],
           Return tt))
  /\ (forall i e, i < n -> processing_error c i e ->
        Consumer.iteration c i
        = ([Poll 1; Print [Consumer.running];
            Print [VStr (py "error: " ++ exc_str e ++ py " ")]; Sleep 10],
           Return tt))
  /\ (forall i, i < n ->
        filter is_sleep (fst (Consumer.iteration c i)) = [Sleep 10]
        /\ exists rest, fst (Consumer.iteration c i) = Poll 1 :: rest
                        /\ filter is_poll rest = []).
Proof.
  intros Hnc.
  assert (Hloop : while_true (Consumer.iteration c) n 0
                  = (flat_map (fun i => fst (Consumer.iteration c i)) (seq 0 n),
                     Running)).
  { apply while_true_running. intros j Hj.
    apply iteration_returns. apply no_cancel_before with n; [assumption|lia]. }
  split; [|split; [|split]].
  - intros Ha Hg Hs. apply (main_running c n _ Ha Hg Hs Hloop).
  - intros i e Hi He.
    destruct (no_cancel_poll_error c i e (no_cancel_before c n i Hnc Hi) He)
      as [Hex Hint].
    apply (iteration_after_error c i _ e (try_block_poll_error c i e He) Hex Hint).
  - intros i e Hi He.
    destruct (no_cancel_processing_error c i e (no_cancel_before c n i Hnc Hi) He)
      as [Hex Hint].
    destruct He as (m & Hp & Hv).
    apply (iteration_after_error c i _ e
             (try_block_processing_error c i m e Hp Hv) Hex Hint).
  - intros i Hi. split.
    + apply iteration_sleeps_10. apply iteration_returns.
      apply no_cancel_before with n; assumption.
    + apply iteration_polls_once.
Qed.

(** The flaky consumer: the poll error of iteration 0 and the processing
    error of iteration 1 are printed and slept on, the message of the
    iterations 2 and 3 is printed, and after four iterations the process
    is running. *)
Lemma errors_back_off_witness :
  no_cancel Sample.flaky 4 = true
  /\ Consumer.main Sample.flaky 4
     = ([ GetConsumer; Subscribe [py "weather_data"];
          Poll 1; Print [VStr (py "error: broker unreachable ")]; Sleep 10;
          Poll 1; Print [Consumer.running];
          Print [VStr (py "error: bad payload ")]; Sleep 10;
          Poll 1; Print [Consumer.running]; Print [VInt 21]; Sleep 10;
          Poll 1; Print [Consumer.running]; Print [VInt 21]; Sleep 10 ],
        None)
  /\ Consumer.iteration Sample.flaky 0
     = ([Poll 1; Print [VStr (py "error: broker unreachable ")]; Sleep 10], Return tt)
  /\ Consumer.iteration Sample.flaky 1
     = ([Poll 1; Print [Consumer.running];
         Print [VStr (py "error: bad payload ")]; Sleep 10], Return tt).
Proof.
  assert (Hnc : no_cancel Sample.flaky 4 = true) by reflexivity.
  destruct (errors_back_off_and_the_loop_continues Sample.flaky 4 Hnc)
    as (Hmain & Hpoll & Hproc & _).
  split; [exact Hnc|].
  split; [|split].
  - apply Hmain; reflexivity.
  - apply (Hpoll 0%nat Sample.kafka_down); [lia|reflexivity].
  - apply (Hproc 1%nat Sample.decode_error); [lia|].
    eexists. split; reflexivity.
Defined.

(** C5, as stated, fails: when the subscription is refused the process
    does not end with a status other than 0. *)
Lemma subscription_failure_exit_status_not_nonzero :
  ~ exits_nonzero (Consumer.main Sample.subscribe_fails 5).
Proof.
  intros (code & Hcode & Hnz). cbn in Hcode. congruence.
Qed.

(** C5, amended: when [subscribe] raises an error [e] (and the consumer
    then closes normally), the loop is not entered (no poll is made),
    [subscribe] has been called once, [e] is printed, and the process ends
    with exit status 0: [setup_consumer] catches [e] and returns. *)
Theorem subscription_failure_is_fatal (c : consumer_env) (e : exn) (n : nat) :
  application c = Ok tt ->
  get_consumer c = Ok tt ->
  subscribe c = Err e ->
  is_Exception e = true ->
  consumer_exit c = Ok tt ->
  Consumer.main c n
  = ([GetConsumer; Subscribe [py "weather_data"]; ConsumerExit;
      Print [VStr (py "error : "); VExc e]],
     Some 0%Z).
Proof.
  intros Ha Hg Hs He Hx.
  unfold Consumer.main, Consumer.setup_consumer, with_, try_except, bind, lift, call.
  rewrite Ha, Hg, Hs, Hx. cbn. rewrite He. reflexivity.
Qed.

Lemma subscription_failure_witness :
  Consumer.main Sample.subscribe_fails 5
  = ([GetConsumer; Subscribe [py "weather_data"]; ConsumerExit;
      Print [VStr (py "error : "); VExc Sample.kafka_down]],
     Some 0%Z).
Proof.
  apply (subscription_failure_is_fatal Sample.subscribe_fails Sample.kafka_down);
    reflexivity.
Defined.

(* ================================================================== *)
(** * The producers *)
(* ================================================================== *)

Section Push.

Variable app : producer_env.
Variables topic val key : value.

(** The calls of [push]: once a producer is obtained, [produce] is called
    once and [__exit__] once, however the block is left. *)
Lemma push_calls :
  fst (SendToKafka.push app topic val key)
  = match get_producer app with
    | Ok _ => [GetProducer; Produce topic key val; ProducerExit]
    | Err _ => [GetProducer]
    end.
Proof.
  unfold SendToKafka.push, with_, try_except, bind, call, error_json, lift.
  destruct (get_producer app) as [[]|e]; cbn.
  - destruct (produce app topic key val) as [[]|e1];
      destruct (producer_exit app) as [[]|e2]; cbn;
      try reflexivity;
      match goal with
      | |- context [is_Exception ?x] => destruct (is_Exception x)
      end; reflexivity.
  - destruct (is_Exception e); reflexivity.
Qed.

(** The outcome of [push]: [None] after a publish without failure; after
    a failure [e] that is an [Exception], the [TypeError] that
    [json.dumps] raises for [e] in the handler. *)
Lemma push_outcome :
  snd (SendToKafka.push app topic val key)
  = match publish_outcome app topic val key with
    | Ok _ => Return VNone
    | Err e =>
        if is_Exception e
        then Raise (not_serializable (class_name (exc_cls e)))
        else Raise e
    end.
Proof.
  unfold SendToKafka.push, publish_outcome, with_, try_except, bind, call,
    error_json, lift.
  destruct (get_producer app) as [[]|e]; cbn.
  - destruct (produce app topic key val) as [[]|e1];
      destruct (producer_exit app) as [[]|e2]; cbn;
      try reflexivity;
      match goal with
      | |- context [is_Exception ?x] => destruct (is_Exception x)
      end; reflexivity.
  - destruct (is_Exception e); reflexivity.
Qed.

(** [push] never returns a string. *)
Lemma push_returns_no_string s :
  snd (SendToKafka.push app topic val key) <> Return (VStr s).
Proof.
  rewrite push_outcome.
  destruct (publish_outcome app topic val key) as [[]|e];
    [discriminate|destruct (is_Exception e); discriminate].
Qed.

End Push.

(** C3, evaluated on a broker that gives no producer, on a producer whose
    [produce] raises and on one whose flush raises.  The claim: the
    failure is caught and returned to the caller as an error value, there
    is no retry, and the producer is released on every path.  The code:
    there is one [produce] at most and [__exit__] runs whenever a
    producer was obtained, but the handler's [json.dumps({'error': e})]
    raises [TypeError], so [push] raises instead of returning. *)
Theorem push_failure_raises_TypeError :
  let topic := VStr (py "users") in
  let val := VStr (py "{}") in
  let type_error := not_serializable "KafkaException" in
  SendToKafka.push Sample.acquire_fails topic val VNone
  = ([GetProducer], Raise type_error)
  /\ SendToKafka.push Sample.produce_fails topic val VNone
     = ([GetProducer; Produce topic VNone val; ProducerExit], Raise type_error)
  /\ SendToKafka.push Sample.flush_fails topic val VNone
     = ([GetProducer; Produce topic VNone val; ProducerExit], Raise type_error)
  /\ json_dumps (VDict [(py "error", VExc Sample.kafka_down)]) = Err type_error.
Proof.
  cbv zeta. repeat split.
Qed.

(** C9: [create_post] returns [None] for every clock, so
    [PostProduce.send_to_kafka] is [push] with the value [None]: whenever
    a producer is obtained, the one message it produces has the value
    [None]. *)
Theorem create_post_returns_None
    (app : producer_env) (now : clock) (topic key : value) :
  PostProduce.create_post now = ([], Return VNone)
  /\ PostProduce.send_to_kafka app now topic key
     = (SendToKafka.push app topic VNone key ;;; ret VNone)
  /\ filter is_produce (fst (PostProduce.send_to_kafka app now topic key))
     = match get_producer app with
       | Ok _ => [Produce topic key VNone]
       | Err _ => []
       end.
Proof.
  assert (Hsend : PostProduce.send_to_kafka app now topic key
                  = (SendToKafka.push app topic VNone key ;;; ret VNone)).
  { unfold PostProduce.send_to_kafka, PostProduce.create_post, try_except, ret.
    unfold bind at 1.
    destruct (SendToKafka.push app topic VNone key ;;; ([], Return VNone));
      reflexivity. }
  split; [reflexivity|]. split; [exact Hsend|].
  rewrite Hsend.
  pose proof (push_calls app topic VNone key) as Hc.
  destruct (SendToKafka.push app topic VNone key) as [t r]. cbn in Hc. subst t.
  destruct r; destruct (get_producer app); reflexivity.
Qed.

(** C10, evaluated on a producer whose [produce] raises.  The claim:
    [push] returns [None] after a publish and a JSON error string after a
    failure, and [send_to_kafka] drops it and returns [None], so the
    caller cannot see the failure.  The code: after a publish [push] and
    [send_to_kafka] return [None]; after the failure [push] raises the
    [TypeError] of [json.dumps({'error': e})] and each [send_to_kafka]
    passes it on to its caller. *)
Theorem publish_failure_reaches_the_caller :
  let topic := VStr (py "users") in
  let now := Sample.at_morning in
  let type_error := not_serializable "KafkaException" in
  snd (SendToKafka.push Sample.accepting topic VNone VNone) = Return VNone
  /\ snd (UserProduce.send_to_kafka Sample.accepting now topic VNone) = Return VNone
  /\ snd (SendToKafka.push Sample.produce_fails topic VNone VNone) = Raise type_error
  /\ snd (UserProduce.send_to_kafka Sample.produce_fails now topic VNone)
     = Raise type_error
  /\ snd (ProfileProduce.send_to_kafka Sample.produce_fails now topic VNone)
     = Raise type_error
  /\ snd (PostProduce.send_to_kafka Sample.produce_fails now topic VNone)
     = Raise type_error
  /\ snd (CommentProduce.send_to_kafka Sample.produce_fails now topic VNone)
     = Raise type_error.
Proof.
  cbv zeta. repeat split.
Qed.

(* ================================================================== *)
(** * The fetch *)
(* ================================================================== *)

(** C6, as stated, fails: when [response.json()] raises a
    [RecursionError], [get_weather] does not return it. *)
Lemma get_weather_raises_RecursionError :
  ~ failure_is_returned Sample.nested_body.
Proof.
  intros H. specialize (H Sample.too_deep eq_refl). cbn in H. discriminate.
Qed.

(** C6, amended: [get_weather] makes one request; when the fetch
    succeeds it returns the payload; when the fetch fails with a
    [requests.exceptions.RequestException] it returns the exception as
    its value; any other exception of the fetch reaches the caller as a
    raised exception.  No failure is dropped. *)
Theorem get_weather_returns_or_propagates (h : http_env) :
  TestKafka.get_weather h
  = ([HttpGet TestKafka.forecast_url],
     match fetch h with
     | Ok payload => Return payload
     | Err e => if is_RequestException e then Return (VExc e) else Raise e
     end).
Proof.
  unfold TestKafka.get_weather, fetch, try_except, bind, call, lift.
  destruct (requests_get h) as [r|e]; cbn.
  - destruct (json r) as [v|e]; cbn; [reflexivity|].
    destruct (is_RequestException e); reflexivity.
  - destruct (is_RequestException e); reflexivity.
Qed.

(* ================================================================== *)
(** * Reading back what [response] wrote *)
(* ================================================================== *)

Section ReadingBack.

Local Open Scope N_scope.

(** Decides the comparisons of a goal by cases. *)
Ltac tests :=
  repeat match goal with
  | |- context [?a =? ?b] => destruct (N.eqb_spec a b); try lia
  | |- context [?a <=? ?b] => destruct (N.leb_spec a b); try lia
  | |- context [?a <? ?b] => destruct (N.ltb_spec a b); try lia
  end.

(** Brings appended texts to the form [c :: ... ++ rest]. *)
Ltac flatten := repeat (rewrite <- app_assoc || (progress (cbn [app]))).

Lemma hex_val_hex_digit d : d < 16 -> Wire.hex_val (hex_digit d) = Some d.
Proof.
  intros Hd. unfold Wire.hex_val, hex_digit.
  destruct (N.ltb_spec d 10); cbn [andb]; tests; cbn [andb]; f_equal; lia.
Qed.

Lemma hex_digits_sum n :
  n < 65536 ->
  (n / 4096 mod 16) * 4096 + (n / 256 mod 16) * 256 + (n / 16 mod 16) * 16 + n mod 16
  = n.
Proof.
  intros Hn.
  pose proof (N.div_mod n 16 ltac:(lia)).
  pose proof (N.div_mod (n / 16) 16 ltac:(lia)).
  pose proof (N.div_mod (n / 256) 16 ltac:(lia)).
  pose proof (N.mod_lt n 16 ltac:(lia)).
  pose proof (N.mod_lt (n / 16) 16 ltac:(lia)).
  pose proof (N.mod_lt (n / 256) 16 ltac:(lia)).
  assert (n / 256 = n / 16 / 16) by (rewrite N.Div0.div_div; reflexivity).
  assert (n / 4096 = n / 256 / 16) by (rewrite N.Div0.div_div; reflexivity).
  assert (n / 4096 < 16) by (apply N.Div0.div_lt_upper_bound; lia).
  rewrite (N.mod_small (n / 4096) 16) by lia.
  lia.
Qed.

Lemma hex4_val_hex4 n :
  n < 65536 ->
  Wire.hex4_val (hex_digit (n / 4096 mod 16)) (hex_digit (n / 256 mod 16))
    (hex_digit (n / 16 mod 16)) (hex_digit (n mod 16)) = Some n.
Proof.
  intros Hn. unfold Wire.hex4_val.
  rewrite !hex_val_hex_digit by (apply N.mod_lt; lia).
  f_equal. apply hex_digits_sum. assumption.
Qed.

Lemma land_shiftl_low a y k : y < 2 ^ k -> N.land (N.shiftl a k) y = 0.
Proof.
  intros Hy. apply N.bits_inj_0. intros i. rewrite N.land_spec.
  destruct (N.lt_ge_cases i k) as [Hi|Hi].
  - rewrite N.shiftl_spec_low by assumption. reflexivity.
  - replace (N.testbit y i) with false; [apply andb_false_r|].
    symmetry. destruct (N.eq_dec y 0) as [->|Hy0]; [apply N.bits_0|].
    apply N.bits_above_log2.
    apply N.lt_le_trans with k; [|assumption].
    apply N.log2_lt_pow2; lia.
Qed.

Lemma lor_shiftl_low a y k : y < 2 ^ k -> N.lor (N.shiftl a k) y = a * 2 ^ k + y.
Proof.
  intros Hy.
  rewrite <- N.lxor_lor by (apply land_shiftl_low; assumption).
  rewrite <- N.add_nocarry_lxor by (apply land_shiftl_low; assumption).
  rewrite N.shiftl_mul_pow2. reflexivity.
Qed.

Lemma high_surrogate_value n :
  n < 1048576 ->
  N.lor 55296 (N.land (N.shiftr n 10) 1023) = 55296 + n / 1024.
Proof.
  intros Hn.
  change 1023 with (N.ones 10). rewrite N.land_ones, N.shiftr_div_pow2.
  change (2 ^ 10) with 1024.
  assert (n / 1024 < 1024) by (apply N.Div0.div_lt_upper_bound; lia).
  rewrite N.mod_small by assumption.
  change 55296 with (N.shiftl 54 10).
  rewrite lor_shiftl_low by (change (2 ^ 10) with 1024; assumption).
  reflexivity.
Qed.

Lemma low_surrogate_value n :
  N.lor 56320 (N.land n 1023) = 56320 + n mod 1024.
Proof.
  change 1023 with (N.ones 10). rewrite N.land_ones.
  change (2 ^ 10) with 1024.
  change 56320 with (N.shiftl 55 10).
  rewrite lor_shiftl_low by (apply N.mod_lt; discriminate).
  reflexivity.
Qed.


Lemma read_string_plain c r :
  c <> 34 -> c <> 92 -> 32 <= c ->
  Wire.read_string (c :: r) = Wire.push_char c (Wire.read_string r).
Proof.
  intros. cbn [Wire.read_string]. tests. reflexivity.
Qed.

Lemma read_string_u a b c d n r :
  Wire.hex4_val a b c d = Some n ->
  Wire.is_high_surrogate n = false ->
  Wire.read_string (92 :: 117 :: a :: b :: c :: d :: r)
  = Wire.push_char n (Wire.read_string r).
Proof.
  intros Hh Hs. cbn [Wire.read_string]. cbn [N.eqb Pos.eqb].
  rewrite Hh, Hs. reflexivity.
Qed.

Lemma read_string_pair a b c d a2 b2 c2 d2 hi lo r :
  Wire.hex4_val a b c d = Some hi ->
  Wire.is_high_surrogate hi = true ->
  Wire.hex4_val a2 b2 c2 d2 = Some lo ->
  Wire.is_low_surrogate lo = true ->
  Wire.read_string
    (92 :: 117 :: a :: b :: c :: d :: 92 :: 117 :: a2 :: b2 :: c2 :: d2 :: r)
  = Wire.push_char (Wire.join_surrogates hi lo) (Wire.read_string r).
Proof.
  intros Hh Hs Hl Hs'. cbn [Wire.read_string]. cbn [N.eqb Pos.eqb andb].
  rewrite Hh, Hs, Hl, Hs'. reflexivity.
Qed.

(** The reader undoes the escape of one character of text. *)
Lemma read_escape_char c r :
  Wire.scalar c = true ->
  Wire.read_string (escape_char c ++ r) = Wire.push_char c (Wire.read_string r).
Proof.
  intros Hs. unfold escape_char.
  destruct (N.eqb_spec c 34) as [->|H34]; [reflexivity|].
  destruct (N.eqb_spec c 92) as [->|H92]; [reflexivity|].
  destruct (N.eqb_spec c 10) as [->|H10]; [reflexivity|].
  destruct (N.eqb_spec c 13) as [->|H13]; [reflexivity|].
  destruct (N.eqb_spec c 9) as [->|H9]; [reflexivity|].
  destruct (N.eqb_spec c 8) as [->|H8]; [reflexivity|].
  destruct (N.eqb_spec c 12) as [->|H12]; [reflexivity|].
  destruct (N.leb_spec 32 c) as [H32|H32]; cbn [andb].
  - destruct (N.leb_spec c 126) as [H126|H126].
    + apply read_string_plain; assumption.
    + destruct (N.ltb_spec c 65536) as [Hb|Hb].
      * apply read_string_u; [apply hex4_val_hex4; assumption|].
        revert Hs. unfold Wire.scalar, Wire.is_high_surrogate. tests; reflexivity.
      * assert (Hc : c < 1114112).
        { revert Hs. unfold Wire.scalar. tests; cbn; congruence. }
        rewrite high_surrogate_value by lia. rewrite low_surrogate_value.
        assert (Hq : (c - 65536) / 1024 < 1024)
          by (apply N.Div0.div_lt_upper_bound; lia).
        pose proof (N.mod_lt (c - 65536) 1024 ltac:(discriminate)) as Hr.
        pose proof (N.div_mod (c - 65536) 1024 ltac:(discriminate)) as Hdm.
        set (q := (c - 65536) / 1024) in *.
        set (m := (c - 65536) mod 1024) in *.
        clearbody q m.
        unfold backslash_u, hex4. cbn [app].
        rewrite (read_string_pair _ _ _ _ _ _ _ _ (55296 + q) (56320 + m)).
        -- f_equal. unfold Wire.join_surrogates. lia.
        -- apply hex4_val_hex4. lia.
        -- unfold Wire.is_high_surrogate. tests; reflexivity.
        -- apply hex4_val_hex4. lia.
        -- unfold Wire.is_low_surrogate. tests; reflexivity.
  - destruct (N.ltb_spec c 65536); [|lia].
    apply read_string_u; [apply hex4_val_hex4; lia|].
    unfold Wire.is_high_surrogate. tests; reflexivity.
Qed.

(** The reader gives back the text that was written between quotes. *)
Lemma read_string_escaped s rest :
  Wire.text s = true ->
  Wire.read_string (flat_map escape_char s ++ 34 :: rest) = Some (s, rest).
Proof.
  unfold Wire.text. induction s as [|c s IH]; intros Ht; [reflexivity|].
  cbn [forallb] in Ht. apply andb_prop in Ht. destruct Ht as [Hc Hs].
  cbn [flat_map]. rewrite <- app_assoc, read_escape_char by assumption.
  rewrite IH by assumption. reflexivity.
Qed.


(** ** Numbers *)

Lemma read_digits_chars u rest :
  Wire.ends_number rest ->
  Wire.read_digits (uint_chars u ++ rest) = (u, rest).
Proof.
  intros Hrest.
  induction u; cbn [uint_chars app Wire.read_digits];
    try (cbn [Wire.is_digit Wire.digit N.leb N.compare Pos.compare Pos.compare_cont andb N.eqb Pos.eqb];
         rewrite IHu; reflexivity).
  destruct rest as [|c r]; [reflexivity|].
  cbn in Hrest. cbn [Wire.read_digits]. rewrite Hrest. reflexivity.
Qed.

Lemma to_uint_nonnil n : N.to_uint n <> Decimal.Nil.
Proof.
  destruct n as [|p]; [discriminate|].
  apply DecimalPos.Unsigned.to_uint_nonnil.
Qed.

Lemma read_nat_chars n rest :
  Wire.ends_number rest ->
  Wire.read_nat (uint_chars (N.to_uint n) ++ rest) = Some (n, rest).
Proof.
  intros Hrest. unfold Wire.read_nat. rewrite read_digits_chars by assumption.
  pose proof (to_uint_nonnil n) as Hn.
  pose proof (DecimalN.Unsigned.of_to n) as Hof.
  destruct (N.to_uint n); try contradiction; rewrite Hof; reflexivity.
Qed.

(** A number starts with a digit. *)
Lemma uint_chars_head u :
  u <> Decimal.Nil ->
  exists c r, uint_chars u = c :: r /\ 48 <= c <= 57.
Proof.
  destruct u; intros Hu; try contradiction;
    cbn [uint_chars]; eexists; eexists; (split; [reflexivity|lia]).
Qed.

Lemma skip_ws_token c r :
  Wire.is_ws c = false -> Wire.skip_ws (c :: r) = c :: r.
Proof.
  intros H. cbn [Wire.skip_ws]. rewrite H. reflexivity.
Qed.

Lemma read_value_int fuel z rest :
  Wire.ends_number rest ->
  Wire.read_value (S fuel) (int_text z ++ rest) = Some (VInt z, rest).
Proof.
  intros Hrest.
  assert (Hnat : forall n, (0 <= z)%Z -> n = Z.to_N z ->
            Wire.read_value (S fuel) (uint_chars (N.to_uint n) ++ rest)
            = Some (VInt z, rest)).
  { intros n Hz Hn.
    pose proof (read_nat_chars n rest Hrest) as Hread.
    destruct (uint_chars_head (N.to_uint n) (to_uint_nonnil n)) as (c & r & Hc & Hd).
    rewrite Hc in *. cbn [app] in *.
    cbn [Wire.read_value]. rewrite skip_ws_token by (unfold Wire.is_ws; tests; reflexivity).
    tests. rewrite Hread. rewrite Hn, Z2N.id by assumption. reflexivity. }
  destruct z as [|p|p].
  - apply (Hnat 0); [lia|reflexivity].
  - apply (Hnat (Npos p)); [lia|reflexivity].
  - cbn [int_text app Wire.read_value].
    rewrite skip_ws_token by reflexivity.
    cbn [N.eqb Pos.eqb].
    rewrite read_nat_chars by assumption. reflexivity.
Qed.

Lemma read_value_null fuel rest :
  Wire.read_value (S fuel) (py "null" ++ rest) = Some (VNone, rest).
Proof. reflexivity. Qed.

Lemma read_value_string fuel s rest :
  Wire.text s = true ->
  Wire.read_value (S fuel) (encode_basestring_ascii s ++ rest) = Some (VStr s, rest).
Proof.
  intros Ht. unfold encode_basestring_ascii.
  cbn [app Wire.read_value]. rewrite skip_ws_token by reflexivity.
  cbn [N.eqb Pos.eqb].
  rewrite <- app_assoc. cbn [app]. rewrite read_string_escaped by assumption.
  reflexivity.
Qed.

Lemma read_value_space fuel s :
  Wire.read_value fuel (32 :: s) = Wire.read_value fuel s.
Proof. destruct fuel; reflexivity. Qed.

Lemma read_members_space fuel acc s :
  Wire.read_members fuel acc (32 :: s) = Wire.read_members fuel acc s.
Proof. destruct fuel; reflexivity. Qed.


(** ** Values *)

Lemma value_ind_items (P : value -> Prop) :
  P VNone -> (forall b, P (VBool b)) -> (forall z, P (VInt z)) ->
  (forall n, P (VSize n)) -> (forall f, P (VFloat f)) ->
  (forall s, P (VStr s)) ->
  (forall elements, Forall P elements -> P (VList elements)) ->
  (forall items, Forall (fun kv => P (snd kv)) items -> P (VDict items)) ->
  (forall t, P (VTime t)) -> (forall e, P (VExc e)) ->
  forall v, P v.
Proof.
  intros Hnone Hbool Hint Hsize Hfloat Hstr Hlist Hdict Htime Hexc.
  fix IH 1.
  intros [|b|z|n|f|s|elements|items|t|e];
    [apply Hnone|apply Hbool|apply Hint|apply Hsize|apply Hfloat|apply Hstr
    | | |apply Htime|apply Hexc].
  - apply Hlist. induction elements as [|x elements IHelements]; constructor.
    + apply IH.
    + exact IHelements.
  - apply Hdict. induction items as [|[k x] items IHitems]; constructor.
    + apply IH.
    + exact IHitems.
Qed.

(** ** The encoder and the room it has *)

Lemma encode_list room elements :
  encode (S room) (VList elements)
  = match encode_elements room elements true with
    | Ok body => Ok (py "[" ++ body ++ py "]")
    | Err e => Err e
    end.
Proof. reflexivity. Qed.

Lemma encode_dict room items :
  encode (S room) (VDict items)
  = match encode_members room items true with
    | Ok body => Ok (py "{" ++ body ++ py "}")
    | Err e => Err e
    end.
Proof. reflexivity. Qed.

Lemma encode_elements_cons room x l first :
  encode_elements room (x :: l) first
  = match encode room x with
    | Ok sx =>
        match encode_elements room l false with
        | Ok sr => Ok ((if first then [] else py ", ") ++ sx ++ sr)
        | Err e => Err e
        end
    | Err e => Err e
    end.
Proof. reflexivity. Qed.

Lemma encode_members_cons room k x l first :
  encode_members room ((k, x) :: l) first
  = match encode room x with
    | Ok sx =>
        match encode_members room l false with
        | Ok sr =>
            Ok ((if first then [] else py ", ")
                  ++ encode_basestring_ascii k ++ py ": " ++ sx ++ sr)
        | Err e => Err e
        end
    | Err e => Err e
    end.
Proof. reflexivity. Qed.

Lemma depth_list elements : depth (VList elements) = S (elements_depth elements).
Proof. reflexivity. Qed.

Lemma depth_dict items : depth (VDict items) = S (members_depth items).
Proof. reflexivity. Qed.

(** With room for the containers of a value and two calls more, the
    encoder does not reach the limit: more room changes nothing. *)
Lemma encode_room v : forall room room',
  (depth v + 2 <= room)%nat -> (depth v + 2 <= room')%nat ->
  encode room v = encode room' v.
Proof.
  induction v as [|b|z|n|f|s|elements IH|items IH|t|e] using value_ind_items;
    intros room room' Hr Hr'; try reflexivity.
  - rewrite depth_list in Hr, Hr'.
    destruct room as [|r]; [lia|]. destruct room' as [|r']; [lia|].
    rewrite !encode_list.
    assert (H : forall first,
               encode_elements r elements first = encode_elements r' elements first).
    { assert (Hd : (elements_depth elements + 2 <= r)%nat) by lia.
      assert (Hd' : (elements_depth elements + 2 <= r')%nat) by lia.
      clear Hr Hr'. induction IH as [|x l Hx Hl IHl]; intros first; [reflexivity|].
      cbn [elements_depth] in *. rewrite !encode_elements_cons.
      rewrite (Hx r r') by lia. rewrite IHl by lia. reflexivity. }
    rewrite H. reflexivity.
  - rewrite depth_dict in Hr, Hr'.
    destruct room as [|r]; [lia|]. destruct room' as [|r']; [lia|].
    rewrite !encode_dict.
    assert (H : forall first,
               encode_members r items first = encode_members r' items first).
    { assert (Hd : (members_depth items + 2 <= r)%nat) by lia.
      assert (Hd' : (members_depth items + 2 <= r')%nat) by lia.
      clear Hr Hr'. induction IH as [|[k x] l Hx Hl IHl]; intros first; [reflexivity|].
      cbn [members_depth snd] in *. rewrite !encode_members_cons.
      rewrite (Hx r r') by lia. rewrite IHl by lia. reflexivity. }
    rewrite H. reflexivity.
  - destruct room as [|[|r]]; [lia|lia|]. destruct room' as [|[|r']]; [lia|lia|].
    reflexivity.
  - destruct room as [|[|r]]; [lia|lia|]. destruct room' as [|[|r']]; [lia|lia|].
    reflexivity.
Qed.

Lemma encode_far_from_the_limit v room :
  (depth v + 2 <= room)%nat -> encode room v = json_dumps v.
Proof.
  intros H. unfold json_dumps, json_dumps_within. apply encode_room; lia.
Qed.

Lemma json_members_encode items : forall room first,
  (members_depth items + 2 <= room)%nat ->
  encode_members room items first = json_members items first.
Proof.
  induction items as [|[k x] l IHl]; intros room first H; [reflexivity|].
  cbn [json_members members_depth] in *. rewrite encode_members_cons.
  rewrite encode_far_from_the_limit by lia. rewrite IHl by lia. reflexivity.
Qed.

Lemma json_dumps_dict items :
  json_dumps (VDict items)
  = match json_members items true with
    | Ok body => Ok (py "{" ++ body ++ py "}")
    | Err e => Err e
    end.
Proof.
  unfold json_dumps, json_dumps_within. rewrite depth_dict.
  change (2 + S (members_depth items))%nat with (S (2 + members_depth items)).
  rewrite encode_dict, json_members_encode by lia. reflexivity.
Qed.



(** The text of an [int] that is written. *)
Lemma int_repr_ok z s : int_repr z = Ok s -> s = int_text z.
Proof.
  unfold int_repr. destruct (digits z <=? int_max_str_digits)%nat; congruence.
Qed.

Lemma jsonable_dict items :
  Wire.jsonable (VDict items)
  = Wire.members_jsonable items && Wire.distinct (map fst items).
Proof. reflexivity. Qed.

Lemma size_dict items :
  Wire.size (VDict items) = S (Wire.members_size items).
Proof. reflexivity. Qed.

Lemma str_eqb_eq a : forall b, str_eqb a b = true <-> a = b.
Proof.
  induction a as [|x a IH]; intros [|y b]; cbn [str_eqb];
    try (split; [discriminate|discriminate]); [split; reflexivity|].
  rewrite andb_true_iff, N.eqb_eq, IH. split.
  - intros [-> ->]. reflexivity.
  - intros H. injection H as -> ->. split; reflexivity.
Qed.

Lemma existsb_str_eqb k ks :
  existsb (str_eqb k) ks = true <-> In k ks.
Proof.
  rewrite existsb_exists. split.
  - intros (x & Hx & He). apply str_eqb_eq in He. subst x. assumption.
  - intros Hk. exists k. split; [assumption|apply str_eqb_eq; reflexivity].
Qed.

Lemma distinct_NoDup ks : Wire.distinct ks = true -> NoDup ks.
Proof.
  induction ks as [|k ks IH]; intros H; constructor;
    cbn [Wire.distinct] in H; apply andb_prop in H; destruct H as [Hk Hks].
  - intros Hin. apply existsb_str_eqb in Hin. rewrite Hin in Hk. discriminate.
  - apply IH. assumption.
Qed.

(** Setting a key that the dictionary does not have appends the item. *)
Lemma dict_set_fresh acc k v :
  ~ In k (map fst acc) -> Wire.dict_set acc k v = acc ++ [(k, v)].
Proof.
  intros Hk. unfold Wire.dict_set.
  replace (existsb (fun kv => str_eqb (fst kv) k) acc) with false; [reflexivity|].
  symmetry. apply not_true_is_false. intros H.
  apply existsb_exists in H. destruct H as (kv & Hin & He).
  apply str_eqb_eq in He. apply Hk. subst k. apply in_map. assumption.
Qed.

Lemma json_members_cons k x l first m :
  json_members ((k, x) :: l) first = Ok m ->
  exists sx sr,
    json_dumps x = Ok sx /\ json_members l false = Ok sr
    /\ m = (if first then [] else py ", ")
             ++ encode_basestring_ascii k ++ py ": " ++ sx ++ sr.
Proof.
  cbn [json_members]. destruct (json_dumps x) as [sx|e]; [|discriminate].
  destruct (json_members l false) as [sr|e]; [|discriminate].
  intros H. injection H as <-. exists sx, sr. repeat split.
Qed.

(** After the first member the text of the members starts with the
    separator. *)
Lemma json_members_sep l sr :
  l <> [] -> json_members l false = Ok sr ->
  exists m, json_members l true = Ok m /\ sr = 44 :: 32 :: m.
Proof.
  destruct l as [|[k x] l]; [contradiction|]. intros _.
  cbn [json_members]. destruct (json_dumps x) as [sx|e]; [|discriminate].
  destruct (json_members l false) as [sr'|e]; [|discriminate].
  intros H. injection H as <-. eexists. split; reflexivity.
Qed.

Lemma ends_number_members l sr rest :
  json_members l false = Ok sr -> Wire.ends_number (sr ++ 125 :: rest).
Proof.
  destruct l as [|[k x] l].
  - intros H. injection H as <-. reflexivity.
  - intros H. apply json_members_sep in H; [|discriminate].
    destruct H as (m & _ & ->). reflexivity.
Qed.

(** The reader gives back the members that were written, the values
    being read back by [Wire.reads_back]. *)
Lemma read_members_written items :
  Forall (fun kv => Wire.reads_back (snd kv)) items ->
  items <> [] ->
  forall acc m fuel rest,
    Wire.members_jsonable items = true ->
    NoDup (map fst acc ++ map fst items) ->
    json_members items true = Ok m ->
    (Wire.members_size items <= fuel)%nat ->
    Wire.read_members fuel acc (m ++ 125 :: rest) = Some (VDict (acc ++ items), rest).
Proof.
  induction 1 as [|[k x] l Hx Hl IH]; [contradiction|].
  intros _ acc m fuel rest Hj Hnd Hm Hfuel.
  cbn [Wire.members_jsonable] in Hj.
  apply andb_prop in Hj. destruct Hj as [Hj Hjl].
  apply andb_prop in Hj. destruct Hj as [Hk Hjx].
  apply json_members_cons in Hm. destruct Hm as (sx & sr & Hsx & Hsr & ->).
  cbn [Wire.members_size] in Hfuel.
  destruct fuel as [|fuel]; [lia|].
  cbn [map] in Hnd.
  assert (Hfresh : ~ In k (map fst acc)).
  { intros Hin. apply NoDup_remove_2 in Hnd. apply Hnd.
    apply in_or_app. left. assumption. }
  unfold encode_basestring_ascii. change (py ": ") with [58; 32].
  cbn [app snd fst] in *.
  cbn [Wire.read_members]. rewrite skip_ws_token by reflexivity.
  cbn [N.eqb Pos.eqb].
  flatten.
  rewrite read_string_escaped by assumption.
  rewrite skip_ws_token by reflexivity. cbn [N.eqb Pos.eqb].
  rewrite read_value_space.
  rewrite (Hx sx fuel (sr ++ 125 :: rest) Hjx Hsx ltac:(lia)
             (ends_number_members l sr rest Hsr)).
  rewrite dict_set_fresh by assumption.
  destruct l as [|kx' l'].
  - injection Hsr as <-. cbn [app].
    rewrite skip_ws_token by reflexivity. cbn [N.eqb Pos.eqb]. reflexivity.
  - apply json_members_sep in Hsr; [|discriminate].
    destruct Hsr as (m' & Hm' & ->). cbn [app].
    rewrite skip_ws_token by reflexivity. cbn [N.eqb Pos.eqb].
    rewrite read_members_space.
    rewrite (IH ltac:(discriminate) (acc ++ [(k, x)]) m' fuel rest Hjl).
    + rewrite <- app_assoc. reflexivity.
    + rewrite map_app. cbn [map fst]. rewrite <- app_assoc. exact Hnd.
    + exact Hm'.
    + lia.
Qed.

(** The reader gives back every value that [json.dumps] wrote. *)
Lemma read_value_written v : Wire.reads_back v.
Proof.
  induction v as [|b|z|n|f|s|elements IH|items IH|t|e] using value_ind_items;
    unfold Wire.reads_back; intros text fuel rest Hj Hd Hfuel Hrest;
    try discriminate Hj.
  - injection Hd as <-. destruct fuel; [cbn in Hfuel; lia|]. apply read_value_null.
  - apply (int_repr_ok z text) in Hd. subst text.
    destruct fuel; [cbn in Hfuel; lia|].
    apply read_value_int. assumption.
  - injection Hd as <-. destruct fuel; [cbn in Hfuel; lia|].
    apply read_value_string. assumption.
  - rewrite json_dumps_dict in Hd. rewrite jsonable_dict in Hj.
    rewrite size_dict in Hfuel.
    apply andb_prop in Hj. destruct Hj as [Hj Hdist].
    destruct (json_members items true) as [m|e] eqn:Hm; [|discriminate].
    injection Hd as <-.
    destruct fuel as [|fuel]; [lia|].
    change (py "{") with [123]. change (py "}") with [125].
    flatten.
    cbn [Wire.read_value]. rewrite skip_ws_token by reflexivity.
    cbn [N.eqb Pos.eqb].
    destruct items as [|[k x] l].
    + injection Hm as <-. cbn [app].
      rewrite skip_ws_token by reflexivity. reflexivity.
    + pose proof (read_members_written ((k, x) :: l) IH ltac:(discriminate)
                    [] m fuel rest Hj (distinct_NoDup _ Hdist) Hm ltac:(lia))
        as Hread.
      apply json_members_cons in Hm. destruct Hm as (sx & sr & _ & _ & ->).
      unfold encode_basestring_ascii in *. cbn [app] in *.
      rewrite skip_ws_token by reflexivity. cbn [N.eqb Pos.eqb].
      exact Hread.
Qed.


Lemma length_encoded k : (2 <= List.length (encode_basestring_ascii k))%nat.
Proof.
  unfold encode_basestring_ascii. cbn [List.length]. rewrite length_app. cbn. lia.
Qed.

(** The fuel is bounded by the length of the text. *)
Lemma members_size_le_length items :
  Forall (fun kv => forall s, json_dumps (snd kv) = Ok s ->
                      (Wire.size (snd kv) <= S (List.length s))%nat) items ->
  forall first body,
    json_members items first = Ok body ->
    (Wire.members_size items <= List.length body)%nat.
Proof.
  induction 1 as [|[k x] l Hx Hl IH]; intros first body Hm.
  - cbn. lia.
  - apply json_members_cons in Hm. destruct Hm as (sx & sr & Hsx & Hsr & ->).
    cbn [Wire.members_size snd] in *.
    specialize (Hx sx Hsx). specialize (IH false sr Hsr).
    pose proof (length_encoded k).
    rewrite !length_app. change (List.length (py ": ")) with 2%nat. lia.
Qed.

Lemma size_le_length v :
  forall s, json_dumps v = Ok s -> (Wire.size v <= S (List.length s))%nat.
Proof.
  induction v as [|b|z|n|f|s|elements IH|items IH|t|e] using value_ind_items;
    intros text Hd; try (cbn [Wire.size]; lia).
  rewrite json_dumps_dict in Hd. rewrite size_dict.
  destruct (json_members items true) as [m|e] eqn:Hm; [|discriminate].
  injection Hd as <-.
  pose proof (members_size_le_length items IH true m Hm).
  change (py "{") with [123]. change (py "}") with [125].
  cbn [app List.length]. rewrite length_app. cbn [List.length]. lia.
Qed.

(** [json.dumps] does not raise on a value that is [jsonable]. *)
Lemma members_written items :
  Forall (fun kv => Wire.jsonable (snd kv) = true ->
                    exists s, json_dumps (snd kv) = Ok s) items ->
  Wire.members_jsonable items = true ->
  forall first, exists body, json_members items first = Ok body.
Proof.
  induction 1 as [|[k x] l Hx Hl IH]; intros Hj first.
  - exists []. reflexivity.
  - cbn [Wire.members_jsonable] in Hj.
    apply andb_prop in Hj. destruct Hj as [Hj Hjl].
    apply andb_prop in Hj. destruct Hj as [_ Hjx].
    destruct (Hx Hjx) as (sx & Hsx). destruct (IH Hjl false) as (sr & Hsr).
    cbn [json_members snd] in *. rewrite Hsx, Hsr. eexists. reflexivity.
Qed.

Lemma jsonable_written v :
  Wire.jsonable v = true -> exists s, json_dumps v = Ok s.
Proof.
  induction v as [|b|z|n|f|s|elements IH|items IH|t|e] using value_ind_items;
    intros Hj; try discriminate; try (eexists; reflexivity).
  - exists (int_text z). change (int_repr z = Ok (int_text z)).
    unfold int_repr. cbn [Wire.jsonable] in Hj. rewrite Hj. reflexivity.
  - rewrite jsonable_dict in Hj. apply andb_prop in Hj. destruct Hj as [Hj _].
    destruct (members_written items IH Hj true) as (body & Hb).
    rewrite json_dumps_dict, Hb. eexists. reflexivity.
Qed.

(** Reading back what [json.dumps] wrote gives the value. *)
Lemma json_round_trip v :
  Wire.jsonable v = true ->
  exists s, json_dumps v = Ok s /\ Wire.json_loads s = Some v.
Proof.
  intros Hj. destruct (jsonable_written v Hj) as (s & Hs).
  exists s. split; [assumption|].
  unfold Wire.json_loads.
  pose proof (read_value_written v s (S (List.length s)) [] Hj Hs
                (size_le_length v s Hs) I) as Hread.
  rewrite app_nil_r in Hread. rewrite Hread. reflexivity.
Qed.

Lemma serialize_dumps e : serialize e = json_dumps (event_data e).
Proof. destruct e; reflexivity. Qed.

Lemma event_data_jsonable e :
  is_post e = false -> text_fields e = true -> contact_fits e = true ->
  Wire.jsonable (event_data e) = true.
Proof.
  destruct e as [u|p|p|c]; cbn [is_post text_fields contact_fits event_data];
    intros Hp Ht Hc; try discriminate;
    repeat match type of Ht with
    | _ && _ = true => apply andb_prop in Ht; destruct Ht as [Ht ?]
    end.
  - unfold User.data. rewrite jsonable_dict.
    cbn [Wire.members_jsonable Wire.jsonable].
    rewrite Ht, H. reflexivity.
  - unfold Profile.data, User.get_username, User.get_email, Profile.opt_str,
      Profile.opt_int.
    rewrite !jsonable_dict. cbn [Wire.members_jsonable].
    rewrite jsonable_dict. cbn [Wire.members_jsonable Wire.jsonable].
    rewrite Ht, H2, H1, H0.
    destruct (Profile.bio p); destruct (Profile.contact p);
      cbn [Wire.jsonable]; try rewrite H; try rewrite Hc; reflexivity.
  - unfold Comment.data, User.get_username, User.get_email.
    rewrite !jsonable_dict. cbn [Wire.members_jsonable].
    rewrite jsonable_dict. cbn [Wire.members_jsonable Wire.jsonable].
    rewrite Ht, H0, H. reflexivity.
Qed.

(** The serialisation of a profile whose contact is beyond the limit on
    digits raises. *)
Lemma profile_response_raises p z :
  Profile.contact p = Some z ->
  (digits z <=? int_max_str_digits)%nat = false ->
  Profile.response p = Err too_many_digits.
Proof.
  intros Hc Hd. unfold Profile.response, Profile.data, Profile.opt_int.
  rewrite Hc. rewrite json_dumps_dict. cbn [json_members].
  rewrite json_dumps_dict. cbn [json_members].
  change (json_dumps (VInt z)) with (int_repr z). unfold int_repr. rewrite Hd.
  destruct (Profile.opt_str (Profile.bio p)) eqn:Hb;
    unfold Profile.opt_str in Hb; destruct (Profile.bio p); try discriminate;
    reflexivity.
Qed.

Lemma serialize_ok_contact_fits e s : serialize e = Ok s -> contact_fits e = true.
Proof.
  destruct e as [u|p|p|c]; try reflexivity. cbn [serialize contact_fits].
  destruct (Profile.contact p) as [z|] eqn:Hc; [|reflexivity].
  destruct (digits z <=? int_max_str_digits)%nat eqn:Hd; [reflexivity|].
  rewrite (profile_response_raises p z Hc Hd). discriminate.
Qed.

(** X13: the serialisation is injective on what it writes: two user,
    profile or comment events with the same text have the same fields on
    the wire. *)
Lemma wire_fields_determined e e' s :
  is_post e = false -> text_fields e = true ->
  is_post e' = false -> text_fields e' = true ->
  serialize e = Ok s -> serialize e' = Ok s ->
  event_data e = event_data e'.
Proof.
  intros Hp Ht Hp' Ht' Hs Hs'.
  pose proof (serialize_ok_contact_fits e s Hs) as Hc.
  pose proof (serialize_ok_contact_fits e' s Hs') as Hc'.
  rewrite serialize_dumps in Hs, Hs'.
  destruct (json_round_trip _ (event_data_jsonable e Hp Ht Hc)) as (s1 & H1 & L1).
  destruct (json_round_trip _ (event_data_jsonable e' Hp' Ht' Hc'))
    as (s2 & H2 & L2).
  congruence.
Qed.

(** C2, amended: for every user, profile and comment event whose strings
    are text and whose contact, if it has one, has no more digits than
    the interpreter converts (4300), [response] succeeds, and reading its
    text back gives the mapping from field names to values that was
    written: the username and the email of the user (of the referenced
    user, under ["user"], for a profile or a comment), the first name,
    last name, bio and contact of a profile, the content of a comment.
    The creation timestamp and the password are not among them. *)
Theorem wire_fields_round_trip (e : event) :
  is_post e = false ->
  text_fields e = true ->
  contact_fits e = true ->
  exists s, serialize e = Ok s /\ Wire.deserialize s = Some (event_data e).
Proof.
  intros Hp Ht Hc. rewrite serialize_dumps. unfold Wire.deserialize.
  apply json_round_trip. apply event_data_jsonable; assumption.
Qed.

End ReadingBack.

(** Alice's profile is read back from its text. *)
Lemma wire_fields_round_trip_witness :
  exists s,
    Profile.response (Sample.profile Sample.alice) = Ok s
    /\ Wire.deserialize s
       = Some (VDict
                 [ (py "user", VDict [ (py "username", VStr (py "alice"));
                                       (py "email", VStr (py "a@x.com")) ]);
                   (py "first_name", VStr (py "Alice"));
                   (py "last_name", VStr (py "Liddell"));
                   (py "bio", VStr (py "down the rabbit hole"));
                   (py "contact", VInt 7079840969) ]).
Proof.
  apply (wire_fields_round_trip (ProfileCreated (Sample.profile Sample.alice)));
    reflexivity.
Defined.

(** The serialisation of a post raises: [created_at] is a
    [datetime.time], which [json.dumps] does not write. *)
Lemma post_response_raises p :
  Post.response p = Err (not_serializable "time").
Proof. reflexivity. Qed.

(** ** The limit on the digits of an [int] *)

Lemma digits_number d :
  Decimal.unorm d = d -> digits (Sample.number d) = List.length (uint_chars d).
Proof.
  intros H. unfold digits, Sample.number.
  rewrite Zabs2N.id, DecimalN.Unsigned.to_of, H. reflexivity.
Qed.

Lemma digits_opp z : digits (- z) = digits z.
Proof. unfold digits. rewrite Zabs2N.inj_opp. reflexivity. Qed.

Lemma int_text_number d :
  Decimal.unorm d = d -> int_text (Sample.number d) = uint_chars d.
Proof.
  intros H. unfold Sample.number.
  assert (Hr : int_text (Z.of_N (N.of_uint d))
               = uint_chars (N.to_uint (Z.to_N (Z.of_N (N.of_uint d)))))
    by (destruct (N.of_uint d); reflexivity).
  rewrite Hr, N2Z.id, DecimalN.Unsigned.to_of, H. reflexivity.
Qed.

Lemma int_text_opp_number d :
  Decimal.unorm d = d -> d <> Decimal.D0 Decimal.Nil ->
  int_text (- Sample.number d) = 45%N :: uint_chars d.
Proof.
  intros H Hd. unfold Sample.number.
  pose proof (DecimalN.Unsigned.to_of d) as Hto. rewrite H in Hto.
  destruct (N.of_uint d) as [|q] eqn:E.
  - exfalso. apply Hd. rewrite <- Hto. reflexivity.
  - cbn [Z.of_N Z.opp int_text]. rewrite Hto. reflexivity.
Qed.

Lemma uint_chars_nines n : uint_chars (Sample.nines n) = repeat 57%N n.
Proof.
  unfold Sample.nines. induction n as [|n IH]; [reflexivity|].
  cbn [Nat.iter nat_rect uint_chars repeat]. f_equal. exact IH.
Qed.

Lemma length_zeros n :
  List.length (uint_chars (Nat.iter n Decimal.D0 Decimal.Nil)) = n.
Proof.
  induction n as [|n IH]; [reflexivity|].
  cbn [Nat.iter nat_rect uint_chars List.length]. f_equal. exact IH.
Qed.

Lemma digits_one_and_zeros n :
  digits (Sample.number (Sample.one_and_zeros n)) = S n.
Proof.
  rewrite digits_number by reflexivity. unfold Sample.one_and_zeros.
  cbn [uint_chars List.length]. rewrite length_zeros. reflexivity.
Qed.

Lemma digits_nines n : digits (Sample.number (Sample.nines (S n))) = S n.
Proof.
  rewrite digits_number by reflexivity.
  rewrite uint_chars_nines. apply repeat_length.
Qed.

(** An [int] of 4300 digits is written, with its sign; one of 4301 digits
    is not, and the first value that raises decides. *)
Example digit_limit_of_json_dumps :
  json_dumps (VInt (Sample.number (Sample.nines 4300))) = Ok (repeat 57%N 4300)
  /\ json_dumps (VInt (- Sample.number (Sample.nines 4300)))
     = Ok (45%N :: repeat 57%N 4300)
  /\ json_dumps (VInt (Sample.number (Sample.one_and_zeros 4300)))
     = Err too_many_digits
  /\ json_dumps (VDict [ (py "a", VInt (Sample.number (Sample.one_and_zeros 4300)));
                         (py "b", VExc Sample.kafka_down) ])
     = Err too_many_digits
  /\ json_dumps (VDict [ (py "a", VExc Sample.kafka_down);
                         (py "b", VInt (Sample.number (Sample.one_and_zeros 4300))) ])
     = Err (not_serializable "KafkaException").
Proof.
  assert (Hlong : int_repr (Sample.number (Sample.one_and_zeros 4300))
                  = Err too_many_digits).
  { unfold int_repr. rewrite digits_one_and_zeros. reflexivity. }
  repeat apply conj.
  - change (int_repr (Sample.number (Sample.nines 4300)) = Ok (repeat 57%N 4300)).
    unfold int_repr. rewrite (digits_nines 4299).
    rewrite int_text_number by reflexivity. rewrite uint_chars_nines. reflexivity.
  - change (int_repr (- Sample.number (Sample.nines 4300))
            = Ok (45%N :: repeat 57%N 4300)).
    unfold int_repr. rewrite digits_opp, (digits_nines 4299).
    rewrite int_text_opp_number by (reflexivity || discriminate).
    rewrite uint_chars_nines. reflexivity.
  - exact Hlong.
  - rewrite json_dumps_dict. cbn [json_members].
    change (json_dumps (VInt (Sample.number (Sample.one_and_zeros 4300))))
      with (int_repr (Sample.number (Sample.one_and_zeros 4300))).
    rewrite Hlong. reflexivity.
  - rewrite json_dumps_dict. cbn [json_members]. reflexivity.
Qed.

(** C2, as stated, fails: no reader finds the creation timestamp, let
    alone all the attributes, in the serialisation of every event.  Alice
    created in the morning and Alice created in the evening have the same
    serialisation.  The two restrictions of the amended claim are needed
    as well: a user whose name is a pair of surrogates and a user whose
    name is the one character that the pair encodes have the same
    serialisation, and the serialisation of a profile whose contact has
    4301 digits raises [ValueError]. *)
Lemma creation_timestamp_is_not_on_the_wire :
  (~ exists d, recovers_creation_timestamp d)
  /\ (~ exists d, round_trips_every_event d)
  /\ (serialize (UserCreated Sample.surrogates)
      = serialize (UserCreated Sample.astral)
      /\ event_data (UserCreated Sample.surrogates)
         <> event_data (UserCreated Sample.astral))
  /\ Profile.response Sample.long_contact = Err too_many_digits.
Proof.
  assert (Hsame : serialize (UserCreated Sample.alice_late)
                  = serialize (UserCreated Sample.alice)) by reflexivity.
  split; [|split; [|split; [split|]]].
  1, 2: intros (d & Hd);
    destruct (Hd (UserCreated Sample.alice)) as (s1 & Hs1 & Hd1);
    destruct (Hd (UserCreated Sample.alice_late)) as (s2 & Hs2 & Hd2);
    rewrite Hsame in Hs2;
    assert (Hs : s1 = s2) by congruence;
    subst s2; rewrite Hd1 in Hd2; discriminate.
  - reflexivity.
  - discriminate.
  - apply (profile_response_raises Sample.long_contact
             (Sample.number (Sample.one_and_zeros 4300))); [reflexivity|].
    rewrite digits_one_and_zeros. reflexivity.
Qed.

(* ================================================================== *)
(** * The events: what is written, and what can change *)
(* ================================================================== *)

(** C7: two events with a user reference (profile, post or comment) that
    differ only in the password of that user give [json.dumps] the same
    dictionary, whose ["user"] entry holds the username and the email
    only, and have the same serialisation. *)
Theorem password_never_serialized (e1 e2 : event) :
  differ_only_in_password e1 e2 ->
  event_data e1 = event_data e2
  /\ serialize e1 = serialize e2
  /\ exists u, referenced_user e1 = Some u
               /\ dict_get (py "user") (event_data e1) = Some (public_user u).
Proof.
  unfold differ_only_in_password, same_but_password.
  destruct e1 as [u1|p1|p1|c1], e2 as [u2|p2|p2|c2]; try contradiction.
  - intros ((_ & Hu & He) & _ & Hf & Hl & Hb & Hc).
    assert (Hd : Profile.data p1 = Profile.data p2).
    { unfold Profile.data, User.get_username, User.get_email.
      rewrite Hu, He, Hf, Hl, Hb, Hc. reflexivity. }
    split; [exact Hd|]. split.
    + cbn [serialize]. unfold Profile.response. rewrite Hd. reflexivity.
    + exists (Profile.user p1). split; reflexivity.
  - intros ((_ & Hu & He) & Hb & Ht & Hc & Hl).
    assert (Hd : Post.data p1 = Post.data p2).
    { unfold Post.data, User.get_username, User.get_email.
      rewrite Hu, He, Hb, Ht, Hc, Hl. reflexivity. }
    split; [exact Hd|]. split.
    + cbn [serialize]. unfold Post.response. rewrite Hd. reflexivity.
    + exists (Post.user p1). split; reflexivity.
  - intros ((_ & Hu & He) & _ & Hc).
    assert (Hd : Comment.data c1 = Comment.data c2).
    { unfold Comment.data, User.get_username, User.get_email.
      rewrite Hu, He, Hc. reflexivity. }
    split; [exact Hd|]. split.
    + cbn [serialize]. unfold Comment.response. rewrite Hd. reflexivity.
    + exists (Comment.user c1). split; reflexivity.
Qed.

(** Alice's comment, under two passwords. *)
Lemma password_never_serialized_witness :
  User.password Sample.alice <> User.password Sample.alice'
  /\ serialize (CommentCreated (Sample.comment Sample.alice))
     = serialize (CommentCreated (Sample.comment Sample.alice')).
Proof.
  split; [discriminate|].
  apply (password_never_serialized
           (CommentCreated (Sample.comment Sample.alice))
           (CommentCreated (Sample.comment Sample.alice'))).
  cbn. repeat split.
Defined.

Lemma after_calls_cons e m ms :
  after_calls e (m :: ms) = after_calls (after_call e m) ms.
Proof. reflexivity. Qed.

Lemma after_call_other e m :
  is_post e = false -> after_call e m = e.
Proof.
  destruct e; cbn; intros H; try discriminate; destruct m; reflexivity.
Qed.

Lemma after_call_post p m :
  exists p',
    after_call (PostCreated p) m = PostCreated p'
    /\ Post.base p' = Post.base p /\ Post.user p' = Post.user p
    /\ Post.title p' = Post.title p /\ Post.content p' = Post.content p
    /\ Post.get_like_count p'
       = (Post.get_like_count p + if is_add_like m then 1 else 0)%Z.
Proof.
  destruct m; cbn;
    try (exists p; repeat split; unfold Post.get_like_count; lia).
  exists (Post.add_like p u). repeat split.
  unfold Post.get_like_count, Post.add_like. cbn.
  rewrite length_app. cbn. lia.
Qed.

Lemma after_calls_post p ms :
  exists p', after_calls (PostCreated p) ms = PostCreated p'.
Proof.
  revert p. induction ms as [|m ms IH]; intros p.
  - exists p. reflexivity.
  - rewrite after_calls_cons.
    destruct (after_call_post p m) as (p' & Hp' & _). rewrite Hp'. apply IH.
Qed.

(** C8, as stated, fails: a post is not immutable, [add_like] changes
    it. *)
Lemma post_is_not_immutable :
  ~ immutable (PostCreated (Sample.hello Sample.alice)).
Proof.
  intros H. specialize (H (Method.add_like Sample.alice) eq_refl).
  cbn in H. discriminate.
Qed.

(** C8, amended: whatever methods are called on an event, in whatever
    order, its creation timestamp (and its update timestamp) stay as
    [__init__] set them; the calls change nothing but the list of likes of
    a post, whose length grows by the number of calls of [add_like];
    user, profile and comment events do not change at all; so the
    fields that [response] writes stay the same, but for the
    ["like_count"] of a post. *)
Theorem only_add_like_changes_an_event (e : event) (ms : list Method.t) :
  creation_timestamp (after_calls e ms) = creation_timestamp e
  /\ event_base (after_calls e ms) = event_base e
  /\ without_likes (after_calls e ms) = without_likes e
  /\ like_count (after_calls e ms)
     = (like_count e
        + if is_post e then Z.of_nat (List.length (filter is_add_like ms)) else 0)%Z
  /\ (is_post e = true \/ after_calls e ms = e)
  /\ (forall k, k = py "like_count"
                 \/ dict_get k (event_data (after_calls e ms))
                    = dict_get k (event_data e)).
Proof.
  assert (H : event_base (after_calls e ms) = event_base e
              /\ without_likes (after_calls e ms) = without_likes e
              /\ like_count (after_calls e ms)
                 = (like_count e
                    + if is_post e
                      then Z.of_nat (List.length (filter is_add_like ms)) else 0)%Z
              /\ (is_post e = true \/ after_calls e ms = e)).
  { revert e. induction ms as [|m ms IH]; intros e.
    - cbn. repeat split; [destruct (is_post e); lia | right; reflexivity].
    - rewrite after_calls_cons.
      destruct (is_post e) eqn:Hp.
      + destruct e as [| |p|]; try discriminate.
        destruct (after_call_post p m) as (p' & Hp' & Hb & Hu & Ht & Hc & Hl).
        rewrite Hp'.
        destruct (IH (PostCreated p')) as (IHb & IHw & IHl & _).
        rewrite IHb, IHw, IHl. cbn [event_base without_likes like_count is_post].
        rewrite Hb, Hu, Ht, Hc, Hl.
        repeat split; [|left; reflexivity].
        cbn [filter]. destruct (is_add_like m); cbn [List.length]; lia.
      + rewrite (after_call_other e m Hp).
        destruct (IH e) as (IHb & IHw & IHl & IHe).
        rewrite Hp in IHl, IHe.
        repeat split; try assumption. }
  destruct H as (Hb & Hw & Hl & He).
  split; [unfold creation_timestamp; rewrite Hb; reflexivity|].
  repeat (split; [assumption|]).
  intros k. destruct (str_eqb (py "like_count") k) eqn:Hk.
  - left. symmetry. apply str_eqb_eq. assumption.
  - right. destruct He as [Hp|He]; [|rewrite He; reflexivity].
    destruct e as [| |p|]; try discriminate.
    pose proof (after_calls_post p ms) as (p' & Hp').
    rewrite Hp' in Hb, Hw |- *. cbn [event_base without_likes event_data] in *.
    injection Hw as _ Hu Ht Hc.
    unfold Post.data, dict_get, User.get_username, User.get_email.
    rewrite Hb, Hu, Ht, Hc. cbn [find fst snd].
    rewrite Hk. reflexivity.
Qed.

(* ================================================================== *)
(** * The consumer: cancellation, start-up and pace *)
(* ================================================================== *)

(** A loop whose body returns [k] times and then raises. *)
Lemma while_true_raises body e t k : forall fuel i,
  k < fuel ->
  (forall j, i <= j < i + k -> snd (body j) = Return tt) ->
  body (i + k) = (t, Raise e) ->
  while_true body fuel i
  = (flat_map (fun j => fst (body j)) (seq i k) ++ t, Raise e).
Proof.
  induction k as [|k IH]; intros fuel i Hk Hret Hraise;
    (destruct fuel as [|fuel]; [lia|]); cbn [while_true seq flat_map].
  - rewrite Nat.add_0_r in Hraise. rewrite Hraise. reflexivity.
  - assert (Hi : snd (body i) = Return tt) by (apply Hret; lia).
    destruct (body i) as [t0 r0] eqn:Hb. cbn in Hi. subst r0.
    unfold bind. rewrite (IH fuel (S i)).
    + cbn [fst]. rewrite app_assoc. reflexivity.
    + lia.
    + intros j Hj. apply Hret. lia.
    + rewrite <- Hraise. f_equal. lia.
Qed.




(** X2: when the broker gives no consumer, nothing is subscribed to and
    nothing is polled: the error is printed and the process ends with
    status 0. *)
Theorem no_consumer_no_subscription (c : consumer_env) (e : exn) (fuel : nat) :
  application c = Ok tt ->
  get_consumer c = Err e ->
  is_Exception e = true ->
  Consumer.main c fuel
  = ([GetConsumer; Print [VStr (py "error : "); VExc e]], Some 0%Z).
Proof.
  intros Ha Hg He.
  unfold Consumer.main, Consumer.setup_consumer, with_, try_except, bind, lift, call.
  rewrite Ha, Hg. cbn. rewrite He. reflexivity.
Qed.

Lemma no_consumer_no_subscription_witness :
  Consumer.main Sample.no_consumer 5
  = ([GetConsumer; Print [VStr (py "error : "); VExc Sample.kafka_down]], Some 0%Z).
Proof.
  apply (no_consumer_no_subscription Sample.no_consumer Sample.kafka_down 5);
    reflexivity.
Defined.

(** An iteration polls once, and sleeps once after it unless the poll or
    the message leaves the iteration. *)
Lemma iteration_polls_then_sleeps c i :
  (snd (Consumer.iteration c i) = Return tt
   /\ filter is_poll_or_sleep (fst (Consumer.iteration c i)) = [Poll 1; Sleep 10])
  \/ (exists e, snd (Consumer.iteration c i) = Raise e
       /\ (filter is_poll_or_sleep (fst (Consumer.iteration c i)) = [Poll 1]
           \/ filter is_poll_or_sleep (fst (Consumer.iteration c i))
              = [Poll 1; Sleep 10])).
Proof.
  unfold Consumer.iteration, Consumer.poll_and_print, Consumer.try_block, try_except,
    sleep.
  destruct (poll c i) as [[m|]|e]; cbn.
  - destruct (msg_value m) as [v|e]; cbn.
    + destruct (interrupted c i); cbn; [right; eexists|left]; auto.
    + destruct (is_Exception e); cbn.
      * destruct (interrupted c i); cbn; [right; eexists|left]; auto.
      * right; eexists; auto.
  - destruct (interrupted c i); cbn; [right; eexists|left]; auto.
  - destruct (is_Exception e); cbn.
    + destruct (interrupted c i); cbn; [right; eexists|left]; auto.
    + right; eexists; auto.
Qed.

Lemma loop_alternates c fuel : forall i,
  alternates (filter is_poll_or_sleep (fst (while_true (Consumer.iteration c) fuel i)))
  = true.
Proof.
  induction fuel as [|fuel IH]; intros i; [reflexivity|].
  cbn [while_true]. specialize (IH (S i)).
  destruct (iteration_polls_then_sleeps c i) as [[Hr Hf]|(e & Hr & [Hf|Hf])];
    destruct (Consumer.iteration c i) as [t r]; cbn [fst snd] in *; subst r;
    unfold bind.
  - destruct (while_true (Consumer.iteration c) fuel (S i)) as [t' r'].
    cbn [fst] in *. rewrite filter_app, Hf. cbn. exact IH.
  - cbn [fst]. rewrite Hf. reflexivity.
  - cbn [fst]. rewrite Hf. reflexivity.
Qed.

(** X3: whatever the broker and the terminal do, the consumer never polls
    twice without a sleep of 10 seconds in between, never sleeps twice
    without a poll in between, never sleeps before its first poll, and
    every poll has a timeout of 1 second. *)
Theorem consumer_polls_and_sleeps_in_turn (c : consumer_env) (fuel : nat) :
  alternates (filter is_poll_or_sleep (fst (Consumer.main c fuel))) = true.
Proof.
  pose proof (loop_alternates c fuel 0) as Hloop.
  unfold Consumer.main, Consumer.setup_consumer, with_, try_except, bind, lift, call.
  destruct (application c) as [[]|ea]; cbn; [|reflexivity].
  destruct (get_consumer c) as [[]|eg]; cbn.
  - destruct (subscribe c) as [[]|es]; cbn.
    + destruct (while_true (Consumer.iteration c) fuel 0) as [t r]. cbn [fst] in Hloop.
      destruct r as [[]|e|]; cbn.
      * destruct (consumer_exit c) as [[]|ex]; cbn;
          try destruct (is_Exception ex); cbn;
          rewrite ?filter_app; cbn; rewrite ?app_nil_r; exact Hloop.
      * destruct (consumer_exit c) as [[]|ex]; cbn;
          [destruct (is_Exception e)|destruct (is_Exception ex)]; cbn;
          rewrite ?filter_app; cbn; rewrite ?app_nil_r; exact Hloop.
      * rewrite ?app_nil_r. exact Hloop.
    + destruct (consumer_exit c) as [[]|ex]; cbn;
        [destruct (is_Exception es)|destruct (is_Exception ex)]; reflexivity.
  - destruct (is_Exception eg); reflexivity.
Qed.

(* ================================================================== *)
(** * The weather producer *)
(* ================================================================== *)

Lemma turn_full w val s i :
  json_dumps_within (nesting_room w) val = Ok s -> turn_ok w s i = true ->
  TestKafka.turn w val i = (full_turn s, Return tt).
Proof.
  unfold turn_ok, publish_outcome. intros Hs Hok.
  apply andb_prop in Hok. destruct Hok as [Hcut Hpub].
  apply negb_true_iff in Hcut.
  unfold TestKafka.turn, TestKafka.produce_weather, with_, bind, call, lift, print, sleep.
  rewrite Hs, Hcut.
  destruct (get_producer (producer_at w i)) as [[]|e]; [|discriminate].
  destruct (producer_exit (producer_at w i)) as [[]|e]; [|discriminate].
  cbn.
  destruct (produce (producer_at w i) TestKafka.topic TestKafka.key (VStr s)) as [[]|e];
    [|discriminate].
  reflexivity.
Qed.

Lemma turn_failed w val s i e :
  json_dumps_within (nesting_room w) val = Ok s ->
  publish_outcome (producer_at w i) TestKafka.topic (VStr s) TestKafka.key = Err e ->
  TestKafka.turn w val i = (failed_turn (producer_at w i) s, Raise e).
Proof.
  unfold publish_outcome, failed_turn. intros Hs Hpub.
  unfold TestKafka.turn, TestKafka.produce_weather, with_, bind, call, lift, print, sleep.
  rewrite Hs.
  destruct (get_producer (producer_at w i)) as [[]|e1].
  - destruct (producer_exit (producer_at w i)) as [[]|e2]; cbn.
    + rewrite Hpub. reflexivity.
    + injection Hpub as <-.
      destruct (produce (producer_at w i) TestKafka.topic TestKafka.key (VStr s)) as [[]|e3];
        reflexivity.
  - injection Hpub as <-. reflexivity.
Qed.

Lemma turns_ok_before w s n i : turns_ok w s n = true -> i < n -> turn_ok w s i = true.
Proof.
  unfold turns_ok. rewrite forallb_forall. intros H Hi. apply H. apply in_seq. lia.
Qed.

Lemma turns_trace w val s i n :
  json_dumps_within (nesting_room w) val = Ok s ->
  (forall j, i <= j < i + n -> turn_ok w s j = true) ->
  flat_map (fun j => fst (TestKafka.turn w val j)) (seq i n) = List.concat (repeat (full_turn s) n).
Proof.
  intros Hs. revert i. induction n as [|n IH]; intros i Hok; [reflexivity|].
  cbn [seq flat_map repeat List.concat].
  rewrite (turn_full w val s i Hs) by (apply Hok; lia).
  rewrite IH by (intros j Hj; apply Hok; lia). reflexivity.
Qed.

(** X4: for a value that [json.dumps] writes where the loop calls it
    (every [int] within the limit on digits, and the containers nested no
    deeper than the recursion limit leaves room for), as long as the
    broker takes it and no Ctrl-C arrives, [setup_producer] publishes the
    same text, [json.dumps] of the value, once every turn, under the key
    ["location"] on the topic ["weather_data"], with a sleep of 10
    seconds after each; it never fetches again and never returns. *)
Theorem payload_is_republished (w : weather_env) (val : value) (s : str) (n : nat) :
  json_dumps_within (nesting_room w) val = Ok s ->
  turns_ok w s n = true ->
  TestKafka.setup_producer w val n = (List.concat (repeat (full_turn s) n), Running).
Proof.
  intros Hs Hok. unfold TestKafka.setup_producer.
  rewrite while_true_running.
  - rewrite (turns_trace w val s 0 n Hs)
      by (intros j Hj; apply turns_ok_before with n; [assumption|lia]).
    reflexivity.
  - intros j Hj. rewrite (turn_full w val s j Hs); [reflexivity|].
    apply turns_ok_before with n; [assumption|lia].
Qed.

Lemma payload_is_republished_witness :
  TestKafka.setup_producer Sample.steady Sample.reading 3
  = (List.concat
       (repeat (full_turn Sample.reading_text) 3),
     Running).
Proof.
  apply (payload_is_republished Sample.steady Sample.reading); reflexivity.
Defined.

(** X5: for a value that [json.dumps] writes where the loop calls it,
    the first publish that fails with an [Exception] ends the producer:
    after [k] full turns, the failing turn stops in the [with] statement
    (no success line, no sleep), the error is printed and
    [setup_producer] returns [None]; there is no retry. *)
Theorem first_failure_ends_the_producer
    (w : weather_env) (val : value) (s : str) (k fuel : nat) (e : exn) :
  json_dumps_within (nesting_room w) val = Ok s ->
  turns_ok w s k = true ->
  publish_outcome (producer_at w k) TestKafka.topic (VStr s) TestKafka.key = Err e ->
  is_Exception e = true ->
  k < fuel ->
  TestKafka.setup_producer w val fuel
  = (List.concat (repeat (full_turn s) k) ++ failed_turn (producer_at w k) s
       ++ [Print [VStr (py "error : "); VExc e]],
     Return VNone).
Proof.
  intros Hs Hok Hpub He Hk. unfold TestKafka.setup_producer.
  rewrite (while_true_raises (TestKafka.turn w val) e
             (failed_turn (producer_at w k) s) k fuel 0 Hk).
  - rewrite (turns_trace w val s 0 k Hs)
      by (intros j Hj; apply turns_ok_before with k; [assumption|lia]).
    unfold bind, try_except. rewrite He. cbn. rewrite <- app_assoc. reflexivity.
  - intros j Hj. rewrite (turn_full w val s j Hs); [reflexivity|].
    apply turns_ok_before with k; [assumption|lia].
  - apply turn_failed; assumption.
Qed.

Lemma first_failure_ends_the_producer_witness :
  TestKafka.setup_producer Sample.failing_later Sample.reading 5
  = (List.concat
       (repeat (full_turn Sample.reading_text) 2)
       ++ failed_turn Sample.produce_fails
            Sample.reading_text
       ++ [Print [VStr (py "error : "); VExc Sample.kafka_down]],
     Return VNone).
Proof.
  apply (first_failure_ends_the_producer Sample.failing_later Sample.reading
           Sample.reading_text 2 5 Sample.kafka_down);
    try reflexivity.
  lia.
Defined.







(* ================================================================== *)
(** * The producers, again *)
(* ================================================================== *)

(** X8: [push] returns [None] exactly when the message was published
    without failure: a producer was obtained, [produce] raised nothing
    and the flush of [__exit__] raised nothing. *)
Theorem push_returns_None_iff_published (app : producer_env) (topic val key : value) :
  snd (SendToKafka.push app topic val key) = Return VNone
  <-> publish_outcome app topic val key = Ok tt.
Proof.
  rewrite push_outcome.
  destruct (publish_outcome app topic val key) as [[]|e].
  - split; reflexivity.
  - destruct (is_Exception e); split; discriminate.
Qed.

(** X9: what the four producers do does not depend on the clock: the
    creation timestamps of the objects they build are not in what they
    send. *)
Theorem producers_ignore_the_clock
    (app : producer_env) (now now' : clock) (topic key : value) :
  UserProduce.send_to_kafka app now topic key
  = UserProduce.send_to_kafka app now' topic key
  /\ ProfileProduce.send_to_kafka app now topic key
     = ProfileProduce.send_to_kafka app now' topic key
  /\ PostProduce.send_to_kafka app now topic key
     = PostProduce.send_to_kafka app now' topic key
  /\ CommentProduce.send_to_kafka app now topic key
     = CommentProduce.send_to_kafka app now' topic key.
Proof. repeat split. Qed.

(* ================================================================== *)
(** * The events, again *)
(* ================================================================== *)

(** X10: [add_like] keeps the likes in the order of the calls, after the
    likes the post had; the count grows by the number of calls, also when
    a user likes twice; the user and the title of the post stay. *)
Theorem likes_are_kept_in_order (p : Post.t) (us : list User.t) :
  Post.liked (fold_left Post.add_like us p) = Post.liked p ++ us
  /\ Post.get_like_count (fold_left Post.add_like us p)
     = (Post.get_like_count p + Z.of_nat (List.length us))%Z
  /\ Post.get_user (fold_left Post.add_like us p) = Post.get_user p
  /\ Post.get_title (fold_left Post.add_like us p) = Post.get_title p.
Proof.
  revert p. induction us as [|u us IH]; intros p.
  - cbn. rewrite app_nil_r. repeat split. unfold Post.get_like_count. lia.
  - cbn [fold_left]. destruct (IH (Post.add_like p u)) as (Hl & Hc & Hu & Ht).
    rewrite Hl, Hc, Hu, Ht. cbn [Post.add_like Post.liked].
    repeat split.
    + rewrite <- app_assoc. reflexivity.
    + unfold Post.get_like_count. cbn. rewrite length_app. cbn. lia.
Qed.

(** X11: [response] raises [TypeError] for every post, whatever was
    called on it before: the [datetime.time] under ["created_at"] is not
    JSON serializable. *)
Theorem post_never_serializes (p : Post.t) (ms : list Method.t) :
  serialize (after_calls (PostCreated p) ms) = Err (not_serializable "time").
Proof.
  destruct (after_calls_post p ms) as (p' & ->). reflexivity.
Qed.

Section PrintableAscii.

Local Open Scope N_scope.

Ltac tests :=
  repeat match goal with
  | |- context [?a =? ?b] => destruct (N.eqb_spec a b); try lia
  | |- context [?a <=? ?b] => destruct (N.leb_spec a b); try lia
  | |- context [?a <? ?b] => destruct (N.ltb_spec a b); try lia
  end.

Lemma hex_digit_printable d : d < 16 -> printable (hex_digit d) = true.
Proof.
  intros Hd. unfold printable, hex_digit.
  destruct (N.ltb_spec d 10); tests; reflexivity.
Qed.

Lemma backslash_u_printable n : forallb printable (backslash_u n) = true.
Proof.
  unfold backslash_u, hex4. cbn [forallb].
  rewrite !hex_digit_printable by (apply N.mod_lt; discriminate). reflexivity.
Qed.

Lemma escape_char_printable c : forallb printable (escape_char c) = true.
Proof.
  unfold escape_char.
  repeat match goal with
  | |- context [if (c =? ?k) then _ else _] =>
      destruct (N.eqb_spec c k); [reflexivity|]
  end.
  destruct ((32 <=? c) && (c <=? 126)) eqn:Hp.
  - cbn [forallb]. unfold printable. rewrite Hp. reflexivity.
  - destruct (c <? 65536); [apply backslash_u_printable|].
    rewrite forallb_app, !backslash_u_printable. reflexivity.
Qed.

Lemma encoded_printable s : forallb printable (encode_basestring_ascii s) = true.
Proof.
  unfold encode_basestring_ascii. cbn [forallb]. rewrite forallb_app.
  replace (forallb printable (flat_map escape_char s)) with true; [reflexivity|].
  symmetry. induction s as [|c s IH]; [reflexivity|].
  cbn [flat_map]. rewrite forallb_app, escape_char_printable, IH. reflexivity.
Qed.

Lemma uint_chars_printable u : forallb printable (uint_chars u) = true.
Proof. induction u; cbn [uint_chars forallb]; try rewrite IHu; reflexivity. Qed.

Lemma int_text_printable z : forallb printable (int_text z) = true.
Proof.
  destruct z; cbn [int_text forallb]; rewrite uint_chars_printable; reflexivity.
Qed.

Lemma members_printable items :
  Forall (fun kv => forall s, json_dumps (snd kv) = Ok s ->
                      forallb printable s = true) items ->
  forall first body,
    json_members items first = Ok body -> forallb printable body = true.
Proof.
  induction 1 as [|[k x] l Hx Hl IH]; intros first body Hm.
  - injection Hm as <-. reflexivity.
  - apply json_members_cons in Hm. destruct Hm as (sx & sr & Hsx & Hsr & ->).
    rewrite !forallb_app, encoded_printable, (Hx sx Hsx), (IH false sr Hsr).
    destruct first; reflexivity.
Qed.

(** What [json.dumps] writes for a dictionary is printable ASCII when
    what it writes for the values is. *)
Lemma dict_printable items :
  Forall (fun kv => forall s, json_dumps (snd kv) = Ok s ->
                      forallb printable s = true) items ->
  forall s, json_dumps (VDict items) = Ok s -> forallb printable s = true.
Proof.
  intros H s Hd. rewrite json_dumps_dict in Hd.
  destruct (json_members items true) as [m|e] eqn:Hm; [|discriminate].
  assert (Hs : s = py "{" ++ m ++ py "}") by congruence. subst s.
  rewrite !forallb_app, (members_printable items H true m Hm). reflexivity.
Qed.

Lemma str_printable s0 s :
  json_dumps (VStr s0) = Ok s -> forallb printable s = true.
Proof. intros H. injection H as <-. apply encoded_printable. Qed.

Lemma int_printable z s :
  json_dumps (VInt z) = Ok s -> forallb printable s = true.
Proof.
  intros H. apply (int_repr_ok z s) in H. subst s. apply int_text_printable.
Qed.

Lemma none_printable s :
  json_dumps VNone = Ok s -> forallb printable s = true.
Proof. intros H. injection H as <-. reflexivity. Qed.

(** What [response] returns is printable ASCII. *)
Lemma response_printable e s :
  is_post e = false -> serialize e = Ok s -> forallb printable s = true.
Proof.
  intros Hp. rewrite serialize_dumps.
  destruct e as [u|p|p|c]; try discriminate; cbn [event_data].
  - apply dict_printable. repeat constructor; cbn [snd]; apply str_printable.
  - apply dict_printable. unfold Profile.opt_str, Profile.opt_int.
    repeat constructor; cbn [snd]; intros s';
      try apply str_printable;
      try (apply dict_printable; repeat constructor; cbn [snd]; apply str_printable).
    + destruct (Profile.bio p); [apply str_printable|apply none_printable].
    + destruct (Profile.contact p); [apply int_printable|apply none_printable].
  - apply dict_printable.
    repeat constructor; cbn [snd]; intros s';
      try apply str_printable;
      apply dict_printable; repeat constructor; cbn [snd]; apply str_printable.
Qed.

(** [response] returns for a user, for a comment, and for a profile whose
    contact is within the limit on digits. *)
Lemma response_returns e :
  is_post e = false -> contact_fits e = true -> exists s, serialize e = Ok s.
Proof.
  intros Hp Hc.
  destruct e as [u|p|p|c]; try discriminate; cbn [serialize contact_fits] in *.
  - eexists. reflexivity.
  - unfold Profile.response, Profile.data, Profile.opt_str, Profile.opt_int.
    rewrite json_dumps_dict. cbn [json_members]. rewrite json_dumps_dict.
    cbn [json_members].
    change (json_dumps (VStr (Profile.first_name p)))
      with (@Ok str (encode_basestring_ascii (Profile.first_name p))).
    change (json_dumps (VStr (Profile.last_name p)))
      with (@Ok str (encode_basestring_ascii (Profile.last_name p))).
    change (json_dumps (VStr (User.get_username (Profile.user p))))
      with (@Ok str (encode_basestring_ascii (User.get_username (Profile.user p)))).
    change (json_dumps (VStr (User.get_email (Profile.user p))))
      with (@Ok str (encode_basestring_ascii (User.get_email (Profile.user p)))).
    cbv iota beta.
    destruct (Profile.bio p) as [bio|]; destruct (Profile.contact p) as [z|];
      try (change (json_dumps (VInt z)) with (int_repr z); unfold int_repr;
           rewrite Hc);
      eexists; reflexivity.
  - eexists. reflexivity.
Qed.

End PrintableAscii.

(** X12: the serialisation of a user, of a comment, and of a profile
    whose contact has no more digits than the interpreter converts
    (4300), returns a text, and the text is printable ASCII, whatever code
    points the attributes hold: [json.dumps] escapes the others. *)
Theorem responses_are_printable_ascii (e : event) :
  is_post e = false ->
  contact_fits e = true ->
  exists s, serialize e = Ok s /\ forallb printable s = true.
Proof.
  intros Hp Hc. destruct (response_returns e Hp Hc) as (s & Hs).
  exists s. split; [assumption|]. apply (response_printable e s Hp Hs).
Qed.

Lemma responses_are_printable_ascii_witness :
  exists s,
    serialize (ProfileCreated (Sample.profile Sample.alice)) = Ok s
    /\ forallb printable s = true.
Proof.
  apply (responses_are_printable_ascii (ProfileCreated (Sample.profile Sample.alice)));
    reflexivity.
Defined.

(** Alice created in the morning and Alice created in the evening have
    the same text, and the same fields on the wire. *)
Lemma wire_fields_determined_witness :
  event_data (UserCreated Sample.alice) = event_data (UserCreated Sample.alice_late).
Proof.
  apply (wire_fields_determined (UserCreated Sample.alice)
           (UserCreated Sample.alice_late)
           Sample.alice_text);
    reflexivity.
Defined.

(* ================================================================== *)
(** * The insurance of a vehicle *)
(* ================================================================== *)

(** X14: within a class, the premium never goes down with the age of the
    vehicle: neither as the years pass, nor from a vehicle to an older
    one. *)
Theorem insurance_grows_with_age (now later : datetime) (v v' : Solid.vehicle) :
  same_class v v' = true ->
  (age now v <= age later v')%Z ->
  (Solid.calculate_insurance now v <= Solid.calculate_insurance later v')%Z.
Proof.
  unfold age. intros Hc H.
  destruct v as [s|s|s|s], v' as [s'|s'|s'|s']; try discriminate;
    cbn [Solid.calculate_insurance Solid.attributes] in *;
    unfold Solid.Car.calculate_insurance, Solid.Truck.calculate_insurance,
      Solid.Bus.calculate_insurance, Solid.MotorCycle.calculate_insurance;
    repeat match goal with
    | |- context [(?a >? ?b)%Z] => destruct (Z.gtb_spec a b)
    end; lia.
Qed.

Lemma insurance_grows_with_age_witness :
  (Solid.calculate_insurance Sample.morning Sample.corolla
   <= Solid.calculate_insurance Sample.late Sample.corolla)%Z.
Proof.
  apply (insurance_grows_with_age Sample.morning Sample.late
           Sample.corolla Sample.corolla); [reflexivity|].
  vm_compute. discriminate.
Defined.

(** X15: the premium of a truck is twice the premium of a car of the same
    year, at any time. *)
Theorem truck_insurance_is_twice_car (now : datetime) (self : Solid.Vehicle.t) :
  Solid.Truck.calculate_insurance now self
  = (2 * Solid.Car.calculate_insurance now self)%Z.
Proof.
  unfold Solid.Truck.calculate_insurance, Solid.Car.calculate_insurance.
  destruct (_ >? 5)%Z; reflexivity.
Qed.

(* ================================================================== *)
(** * The web layer *)
(* ================================================================== *)

(** ** Dictionaries *)

Section DictFacts.

Context {V : Type}.
Implicit Types (d : list (str * V)) (k : str) (v : V).

Local Arguments Web.Dict.has_key : simpl never.

Lemma str_eqb_refl k : str_eqb k k = true.
Proof. apply str_eqb_eq. reflexivity. Qed.

Lemma str_eqb_neq k k' : k <> k' -> str_eqb k k' = false.
Proof.
  intros H. destruct (str_eqb k k') eqn:E; [|reflexivity].
  apply str_eqb_eq in E. contradiction.
Qed.

Lemma get_app_fresh d k v :
  existsb (Web.Dict.has_key k) d = false ->
  Web.Dict.get (d ++ [(k, v)]) k = Some v.
Proof.
  unfold Web.Dict.get. induction d as [|[k0 v0] d IH]; cbn; intros H.
  - unfold Web.Dict.has_key. cbn. rewrite str_eqb_refl. reflexivity.
  - apply orb_false_iff in H. destruct H as [H0 H]. rewrite H0. apply IH, H.
Qed.

Lemma get_absent d k :
  existsb (Web.Dict.has_key k) d = false -> Web.Dict.get d k = None.
Proof.
  unfold Web.Dict.get. induction d as [|[k0 v0] d IH]; cbn; intros H; [reflexivity|].
  apply orb_false_iff in H. destruct H as [H0 H]. rewrite H0. apply IH, H.
Qed.

Lemma get_present d k :
  existsb (Web.Dict.has_key k) d = true -> exists v, Web.Dict.get d k = Some v.
Proof.
  unfold Web.Dict.get. induction d as [|[k0 v0] d IH]; cbn; intros H; [discriminate|].
  destruct (Web.Dict.has_key k (k0, v0)); [eexists; reflexivity|]. apply IH, H.
Qed.

Lemma get_app_other d k k' v :
  k <> k' -> Web.Dict.get (d ++ [(k', v)]) k = Web.Dict.get d k.
Proof.
  intros Hk. unfold Web.Dict.get. induction d as [|[k0 v0] d IH]; cbn.
  - unfold Web.Dict.has_key. cbn. rewrite str_eqb_neq by congruence. reflexivity.
  - destruct (Web.Dict.has_key k (k0, v0)); [reflexivity|]. apply IH.
Qed.

(** After [setdefault] the key holds what it held, or the default. *)
Lemma get_setdefault d k v :
  Web.Dict.get (Web.Dict.setdefault d k v) k
  = Some (match Web.Dict.get d k with Some x => x | None => v end).
Proof.
  unfold Web.Dict.setdefault.
  destruct (existsb (Web.Dict.has_key k) d) eqn:E.
  - destruct (get_present d k E) as (x & ->). reflexivity.
  - rewrite get_app_fresh, get_absent by assumption. reflexivity.
Qed.

Lemma get_setdefault_other d k k' v :
  k <> k' -> Web.Dict.get (Web.Dict.setdefault d k' v) k = Web.Dict.get d k.
Proof.
  intros Hk. unfold Web.Dict.setdefault.
  destruct (existsb (Web.Dict.has_key k') d); [reflexivity|].
  apply get_app_other. assumption.
Qed.

Lemma get_map_set d k v :
  existsb (Web.Dict.has_key k) d = true ->
  Web.Dict.get
    (map (fun kv => if Web.Dict.has_key k kv then (fst kv, v) else kv) d) k
  = Some v.
Proof.
  unfold Web.Dict.get. induction d as [|[k0 v0] d IH]; cbn; intros H; [discriminate|].
  destruct (Web.Dict.has_key k (k0, v0)) eqn:E; cbn.
  - unfold Web.Dict.has_key in *. cbn in *. rewrite E. reflexivity.
  - rewrite E. apply IH, H.
Qed.

Lemma get_map_set_other d k k' v :
  k <> k' ->
  Web.Dict.get
    (map (fun kv => if Web.Dict.has_key k' kv then (fst kv, v) else kv) d) k
  = Web.Dict.get d k.
Proof.
  intros Hk. unfold Web.Dict.get. induction d as [|[k0 v0] d IH]; cbn; [reflexivity|].
  destruct (Web.Dict.has_key k' (k0, v0)) eqn:E; cbn.
  - unfold Web.Dict.has_key in *. cbn in *.
    apply str_eqb_eq in E. subst k0.
    rewrite str_eqb_neq by congruence. apply IH.
  - destruct (Web.Dict.has_key k (k0, v0)); [reflexivity|]. apply IH.
Qed.

(** [d[k] = v; d.get(k)] is [v], and the other keys keep their
    values. *)
Lemma get_set d k v : Web.Dict.get (Web.Dict.set d k v) k = Some v.
Proof.
  unfold Web.Dict.set. destruct (existsb (Web.Dict.has_key k) d) eqn:E.
  - apply get_map_set. assumption.
  - apply get_app_fresh. assumption.
Qed.

Lemma get_set_other d k k' v :
  k <> k' -> Web.Dict.get (Web.Dict.set d k' v) k = Web.Dict.get d k.
Proof.
  intros Hk. unfold Web.Dict.set. destruct (existsb (Web.Dict.has_key k') d).
  - apply get_map_set_other. assumption.
  - apply get_app_other. assumption.
Qed.

(** Without the key [k], [d[k] = v] leaves nothing of [v]. *)
Lemma filter_set d k v :
  filter (fun kv => negb (Web.Dict.has_key k kv)) (Web.Dict.set d k v)
  = filter (fun kv => negb (Web.Dict.has_key k kv)) d.
Proof.
  unfold Web.Dict.set. destruct (existsb (Web.Dict.has_key k) d).
  - induction d as [|[k0 v0] d IH]; cbn; [reflexivity|].
    destruct (Web.Dict.has_key k (k0, v0)) eqn:E; cbn.
    + unfold Web.Dict.has_key in *. cbn in *. rewrite E. cbn. apply IH.
    + rewrite E. cbn. rewrite IH. reflexivity.
  - rewrite filter_app. cbn. unfold Web.Dict.has_key at 2. cbn.
    rewrite str_eqb_refl. cbn. apply app_nil_r.
Qed.

Lemma get_filter_other d k k' :
  k <> k' ->
  Web.Dict.get (filter (fun kv => negb (Web.Dict.has_key k' kv)) d) k
  = Web.Dict.get d k.
Proof.
  intros Hk. unfold Web.Dict.get. induction d as [|[k0 v0] d IH]; cbn; [reflexivity|].
  destruct (Web.Dict.has_key k' (k0, v0)) eqn:E; cbn.
  - unfold Web.Dict.has_key in *. cbn in *. apply str_eqb_eq in E. subst k0.
    rewrite str_eqb_neq by congruence. apply IH.
  - destruct (Web.Dict.has_key k (k0, v0)); [reflexivity|]. apply IH.
Qed.

Lemma get_filter_same d k :
  Web.Dict.get (filter (fun kv => negb (Web.Dict.has_key k kv)) d) k = None.
Proof.
  unfold Web.Dict.get. induction d as [|[k0 v0] d IH]; cbn; [reflexivity|].
  destruct (Web.Dict.has_key k (k0, v0)) eqn:E; cbn; [apply IH|].
  rewrite E. apply IH.
Qed.

Lemma filter_filter_swap d k k' :
  filter (fun kv => negb (Web.Dict.has_key k kv))
    (filter (fun kv => negb (Web.Dict.has_key k' kv)) d)
  = filter (fun kv => negb (Web.Dict.has_key k' kv))
      (filter (fun kv => negb (Web.Dict.has_key k kv)) d).
Proof.
  induction d as [|kv d IH]; cbn; [reflexivity|].
  destruct (Web.Dict.has_key k kv) eqn:E, (Web.Dict.has_key k' kv) eqn:E'; cbn;
    rewrite ?E, ?E'; cbn; rewrite IH; reflexivity.
Qed.

End DictFacts.

(** ** The user manager *)
Lemma wbind_ok {A B} (m : Web.W A) (k : A -> Web.W B) rows b :
  Web.wbind m k = (rows, Ok b) ->
  exists rows1 a rows2,
    m = (rows1, Ok a) /\ k a = (rows2, Ok b) /\ rows = rows1 ++ rows2.
Proof.
  unfold Web.wbind. destruct m as [rows1 [a|e]]; [|discriminate].
  destruct (k a) as [rows2 r] eqn:Hk. intros H. injection H as <- ->.
  exists rows1, a, rows2. repeat split. assumption.
Qed.

(** What a successful [create_user] has done. *)
Lemma create_user_ok dj email user_name password kwargs rows u :
  Web.CustomUserManager.create_user dj email user_name password kwargs = (rows, Ok u) ->
  rows = [u]
  /\ Web.truthy email = true /\ Web.truthy user_name = true
  /\ Web.normalize_email dj email = Ok (Web.email u)
  /\ Web.user_name u = user_name
  /\ Web.make_password dj password = Ok (Web.password u)
  /\ Web.fields u = kwargs
  /\ Web.save dj u = Ok tt.
Proof.
  unfold Web.CustomUserManager.create_user.
  destruct (Web.truthy email); [|discriminate].
  destruct (Web.truthy user_name); [|discriminate]. cbn [negb].
  unfold Web.wbind, Web.wlift, Web.set_password, Web.call_save, Web.wret.
  destruct (Web.normalize_email dj email) as [em|e]; [|discriminate].
  destruct (Web.model_init dj kwargs) as [[]|e]; [|discriminate].
  destruct (Web.make_password dj password) as [h|e]; [|discriminate]. cbn.
  destruct (Web.save dj _) as [[]|e] eqn:Hsave; [|discriminate].
  intros H. injection H as <- <-. cbn. repeat split. exact Hsave.
Qed.

(** X16: [create_user] saves at most one row, and only a row with an
    email and a user name that are not empty: the row has the normalized
    email, the user name and the extra fields as given, and the hash of
    the password, never the password itself. *)
Theorem create_user_saves_valid_users_only
    (dj : Web.django) (email user_name password : Web.obj)
    (kwargs : list (str * Web.obj)) :
  fst (Web.CustomUserManager.create_user dj email user_name password kwargs) = []
  \/ exists u,
       fst (Web.CustomUserManager.create_user dj email user_name password kwargs) = [u]
       /\ Web.truthy email = true /\ Web.truthy user_name = true
       /\ Web.normalize_email dj email = Ok (Web.email u)
       /\ Web.user_name u = user_name
       /\ Web.make_password dj password = Ok (Web.password u)
       /\ Web.fields u = kwargs.
Proof.
  unfold Web.CustomUserManager.create_user.
  destruct (Web.truthy email); [|left; reflexivity].
  destruct (Web.truthy user_name); [|left; reflexivity]. cbn [negb].
  unfold Web.wbind, Web.wlift, Web.set_password, Web.call_save, Web.wret.
  destruct (Web.normalize_email dj email) as [em|e]; [|left; reflexivity].
  destruct (Web.model_init dj kwargs) as [[]|e]; [|left; reflexivity].
  destruct (Web.make_password dj password) as [h|e]; [|left; reflexivity]. cbn.
  right. eexists. split; [destruct (Web.save dj _) as [[]|e]; reflexivity|].
  repeat split.
Qed.

Lemma superuser_kwargs_flags kwargs :
  let d := Web.Dict.setdefault
             (Web.Dict.setdefault
                (Web.Dict.setdefault kwargs (py "is_staff") (Web.OBool true))
                (py "is_active") (Web.OBool true))
             (py "is_superuser") (Web.OBool true) in
  Web.Dict.get d (py "is_staff")
  = Some (match Web.Dict.get kwargs (py "is_staff") with
          | Some x => x | None => Web.OBool true end)
  /\ Web.Dict.get d (py "is_active")
     = Some (match Web.Dict.get kwargs (py "is_active") with
             | Some x => x | None => Web.OBool true end)
  /\ Web.Dict.get d (py "is_superuser")
     = Some (match Web.Dict.get kwargs (py "is_superuser") with
             | Some x => x | None => Web.OBool true end).
Proof.
  cbv zeta. repeat split.
  - rewrite !get_setdefault_other by discriminate. apply get_setdefault.
  - rewrite get_setdefault_other by discriminate. rewrite get_setdefault.
    rewrite get_setdefault_other by discriminate. reflexivity.
  - rewrite get_setdefault. rewrite !get_setdefault_other by discriminate.
    reflexivity.
Qed.

(** X17: a user that [create_superuser] returns was saved once, with
    [is_staff] and [is_superuser] both [True]; [is_active] is what the
    caller gave, and [True] when the caller gave nothing. *)
Theorem superuser_flags_are_enforced
    (dj : Web.django) (email user_name password : Web.obj)
    (kwargs : list (str * Web.obj)) (rows : list Web.user) (u : Web.user) :
  Web.CustomUserManager.create_superuser dj email user_name password kwargs
  = (rows, Ok u) ->
  rows = [u]
  /\ Web.Dict.get (Web.fields u) (py "is_staff") = Some (Web.OBool true)
  /\ Web.Dict.get (Web.fields u) (py "is_superuser") = Some (Web.OBool true)
  /\ Web.Dict.get (Web.fields u) (py "is_active")
     = Some (match Web.Dict.get kwargs (py "is_active") with
             | Some x => x
             | None => Web.OBool true
             end).
Proof.
  unfold Web.CustomUserManager.create_superuser. cbv zeta.
  destruct (superuser_kwargs_flags kwargs) as (Hs & Ha & Hp). cbv zeta in Hs, Ha, Hp.
  set (d := Web.Dict.setdefault _ (py "is_superuser") _) in *.
  rewrite Hs, Hp.
  destruct (Web.is_True _) eqn:Ts; [|discriminate]. cbn [negb].
  destruct (Web.is_True (match Web.Dict.get kwargs (py "is_superuser") with
                         | Some x => x | None => Web.OBool true end)) eqn:Tp;
    [|discriminate]. cbn [negb].
  intros H. apply create_user_ok in H.
  destruct H as (Hrows & _ & _ & _ & _ & _ & Hf & _).
  rewrite Hf, Hs, Hp, Ha. repeat split; try assumption; f_equal.
  - destruct (match Web.Dict.get kwargs (py "is_staff") with
              | Some x => x | None => Web.OBool true end) as [|[]| |];
      try discriminate; reflexivity.
  - destruct (match Web.Dict.get kwargs (py "is_superuser") with
              | Some x => x | None => Web.OBool true end) as [|[]| |];
      try discriminate; reflexivity.
Qed.

Lemma superuser_flags_are_enforced_witness :
  [Sample.root] = [Sample.root]
  /\ Web.Dict.get (Web.fields Sample.root) (py "is_staff") = Some (Web.OBool true)
  /\ Web.Dict.get (Web.fields Sample.root) (py "is_superuser")
     = Some (Web.OBool true)
  /\ Web.Dict.get (Web.fields Sample.root) (py "is_active")
     = Some (match Web.Dict.get (@nil (str * Web.obj)) (py "is_active") with
             | Some x => x
             | None => Web.OBool true
             end).
Proof.
  apply (superuser_flags_are_enforced Sample.django
           (Web.OStr (py "root@x.com")) (Web.OStr (py "root"))
           (Web.OStr (py "toor")) [] [Sample.root] Sample.root).
  reflexivity.
Defined.

(** X18: a caller that passes [is_staff] or [is_superuser] with a value
    other than [True] gets a [ValueError], for [is_staff] first, before
    anything is validated, hashed or saved. *)
Theorem superuser_flags_are_checked_first
    (dj : Web.django) (email user_name password : Web.obj)
    (kwargs : list (str * Web.obj)) :
  flag_ok kwargs "is_staff" && flag_ok kwargs "is_superuser" = false ->
  Web.CustomUserManager.create_superuser dj email user_name password kwargs
  = ([], Err (Web.value_error
                (if flag_ok kwargs "is_staff"
                 then "Superuser must have is_superuser=True."
                 else "Superuser must have is_staff=True."))).
Proof.
  unfold Web.CustomUserManager.create_superuser, flag_ok. cbv zeta.
  destruct (superuser_kwargs_flags kwargs) as (Hs & _ & Hp). cbv zeta in Hs, Hp.
  rewrite Hs, Hp. intros H.
  destruct (Web.Dict.get kwargs (py "is_staff")) as [vs|];
    destruct (Web.Dict.get kwargs (py "is_superuser")) as [vp|];
    cbn [Web.is_True] in *;
    repeat match goal with
    | |- context [Web.is_True ?v] => destruct (Web.is_True v)
    end; try discriminate; reflexivity.
Qed.

Lemma superuser_flags_are_checked_first_witness :
  Web.CustomUserManager.create_superuser Sample.django
    (Web.OStr (py "root@x.com")) (Web.OStr (py "root")) (Web.OStr (py "toor"))
    [(py "is_superuser", Web.OInt 1)]
  = ([], Err (Web.value_error "Superuser must have is_superuser=True.")).
Proof.
  apply (superuser_flags_are_checked_first Sample.django
           (Web.OStr (py "root@x.com")) (Web.OStr (py "root"))
           (Web.OStr (py "toor")) [(py "is_superuser", Web.OInt 1)]).
  reflexivity.
Defined.

(** X19: the text of a post is its title when it has one, and otherwise
    the first 20 characters of its content; it is empty only for a post
    without content. *)
Theorem post_str_is_title_or_start_of_content (p : Web.PostModel.t) :
  (List.length (Web.PostModel.__str__ p)
   <= Nat.max 20 (match Web.PostModel.title p with
                  | Some t => List.length t
                  | None => 0
                  end))%nat
  /\ (Web.PostModel.title p = Some (Web.PostModel.__str__ p)
      \/ Web.PostModel.__str__ p = firstn 20 (Web.PostModel.content p)
         /\ (Web.PostModel.title p = None \/ Web.PostModel.title p = Some []))
  /\ (Web.PostModel.__str__ p = [] -> Web.PostModel.content p = []).
Proof.
  unfold Web.PostModel.__str__.
  destruct (Web.PostModel.title p) as [[|c t]|].
  - pose proof (firstn_le_length 20 (Web.PostModel.content p)).
    repeat split; [lia|right; auto|].
    destruct (Web.PostModel.content p); [reflexivity|discriminate].
  - repeat split; [cbn [List.length]; lia|left; reflexivity|discriminate].
  - pose proof (firstn_le_length 20 (Web.PostModel.content p)).
    repeat split; [lia|right; auto|].
    destruct (Web.PostModel.content p); [reflexivity|discriminate].
Qed.

(** ** The serializers *)
Lemma create_user_kwargs_ok dj kwargs rows u :
  Web.CustomUserManager.create_user_kwargs dj kwargs = (rows, Ok u) ->
  rows = [u] /\ Web.save dj u = Ok tt
  /\ forall k, k <> py "email" -> k <> py "user_name" -> k <> py "password" ->
       Web.Dict.get (Web.fields u) k = Web.Dict.get kwargs k.
Proof.
  unfold Web.CustomUserManager.create_user_kwargs, Web.Dict.pop.
  destruct (Web.Dict.get kwargs (py "email")) as [em|];
    destruct (Web.Dict.get kwargs (py "user_name")) as [un|] eqn:Hun;
    try discriminate.
  rewrite get_filter_other by discriminate. rewrite Hun.
  rewrite !get_filter_other by discriminate.
  destruct (Web.Dict.get kwargs (py "password")) as [pw|]; intros H;
    apply create_user_ok in H;
    destruct H as (Hrows & _ & _ & _ & _ & _ & Hf & Hsave);
    (split; [assumption|]); (split; [assumption|]);
    intros k H1 H2 H3; rewrite Hf, !get_filter_other by assumption; reflexivity.
Qed.

(** X20: a registration that succeeds saves the user twice: first as
    [create_user] makes it, called without a password, then with the hash
    of [password1]; the two rows differ in the password only, and neither
    [password1] nor [password2] becomes a field of the user. *)
Theorem registration_saves_twice
    (dj : Web.django) (validated_data : list (str * Web.obj))
    (rows : list Web.user) (u : Web.user) :
  Web.RegistrationSerializer.create dj validated_data = (rows, Ok u) ->
  exists u0 password1,
    rows = [u0; u]
    /\ Web.save dj u0 = Ok tt /\ Web.save dj u = Ok tt
    /\ Web.Dict.get validated_data (py "password1") = Some password1
    /\ Web.make_password dj password1 = Ok (Web.password u)
    /\ u = Web.with_password u0 (Web.password u)
    /\ Web.Dict.get (Web.fields u) (py "password1") = None
    /\ Web.Dict.get (Web.fields u) (py "password2") = None.
Proof.
  unfold Web.RegistrationSerializer.create, Web.Dict.pop.
  destruct (Web.Dict.get validated_data (py "password1")) as [p1|] eqn:H1;
    [|discriminate].
  rewrite get_filter_other by discriminate.
  destruct (Web.Dict.get validated_data (py "password2")) as [p2|] eqn:H2;
    [|discriminate].
  intros H. apply wbind_ok in H. destruct H as (rows1 & u0 & rows2 & Hc & H & ->).
  apply create_user_kwargs_ok in Hc. destruct Hc as (-> & Hsave0 & Hget).
  unfold Web.wbind, Web.set_password, Web.wlift, Web.call_save, Web.wret in H.
  destruct (Web.make_password dj p1) as [h|e] eqn:Hh; [|discriminate]. cbn in H.
  destruct (Web.save dj (Web.with_password u0 h)) as [[]|e] eqn:Hsave; [|discriminate].
  injection H as <- <-.
  exists u0, p1. cbn [Web.with_password Web.password Web.fields app].
  repeat split; try assumption.
  - rewrite Hget by discriminate. rewrite get_filter_other by discriminate.
    apply get_filter_same.
  - rewrite Hget by discriminate. apply get_filter_same.
Qed.

Lemma registration_saves_twice_witness :
  exists u0 password1,
    [Sample.row "!"; Sample.row "pbkdf2$secret"] = [u0; Sample.row "pbkdf2$secret"]
    /\ Web.save Sample.django u0 = Ok tt
    /\ Web.save Sample.django (Sample.row "pbkdf2$secret") = Ok tt
    /\ Web.Dict.get Sample.signup (py "password1") = Some password1
    /\ Web.make_password Sample.django password1
       = Ok (Web.password (Sample.row "pbkdf2$secret"))
    /\ Sample.row "pbkdf2$secret"
       = Web.with_password u0 (Web.password (Sample.row "pbkdf2$secret"))
    /\ Web.Dict.get (Web.fields (Sample.row "pbkdf2$secret")) (py "password1") = None
    /\ Web.Dict.get (Web.fields (Sample.row "pbkdf2$secret")) (py "password2") = None.
Proof.
  apply (registration_saves_twice Sample.django Sample.signup
           [Sample.row "!"; Sample.row "pbkdf2$secret"]
           (Sample.row "pbkdf2$secret")).
  reflexivity.
Defined.

(** X21: [create] never looks at the value of [password2]: whether the
    two passwords agree has no effect on the registration. *)
Theorem registration_ignores_password2
    (dj : Web.django) (validated_data : list (str * Web.obj)) (v v' : Web.obj) :
  Web.RegistrationSerializer.create dj
    (Web.Dict.set validated_data (py "password2") v)
  = Web.RegistrationSerializer.create dj
      (Web.Dict.set validated_data (py "password2") v').
Proof.
  unfold Web.RegistrationSerializer.create, Web.Dict.pop.
  rewrite !get_set_other by discriminate.
  destruct (Web.Dict.get validated_data (py "password1")) as [p1|]; [|reflexivity].
  rewrite !get_filter_other by discriminate. rewrite !get_set.
  rewrite !(filter_filter_swap _ (py "password2") (py "password1")).
  rewrite !filter_set. reflexivity.
Qed.

(** X22: [validate] of a registration raises for a missing password
    only.  For two passwords that differ it raises nothing: it returns
    the [ValidationError] object, whose text is
    [[ErrorDetail(string='Passwords must be similar ', code='invalid')]],
    as if it were the validated attributes; for two equal passwords it
    returns the attributes unchanged. *)
Theorem registration_validate_returns_the_error (attrs : list (str * Web.obj)) :
  match Web.RegistrationSerializer.validate attrs with
  | Err e =>
      exc_cls e = Custom "KeyError"
      /\ (Web.Dict.get attrs (py "password1") = None
          \/ Web.Dict.get attrs (py "password2") = None)
  | Ok r =>
      exists p1 p2,
        Web.Dict.get attrs (py "password1") = Some p1
        /\ Web.Dict.get attrs (py "password2") = Some p2
        /\ r = if Web.py_eqb p1 p2
               then Web.RegistrationSerializer.Attrs attrs
               else Web.RegistrationSerializer.Returned
                      Web.RegistrationSerializer.passwords_must_be_similar
  end.
Proof.
  unfold Web.RegistrationSerializer.validate.
  destruct (Web.Dict.get attrs (py "password1")) as [p1|];
    [|split; [reflexivity|left; reflexivity]].
  destruct (Web.Dict.get attrs (py "password2")) as [p2|];
    [|split; [reflexivity|right; reflexivity]].
  destruct (Web.py_eqb p1 p2) eqn:E; cbn [negb]; exists p1, p2; rewrite E;
    repeat split.
Qed.

(** X23: [validate] of a login raises exactly when [authenticate] finds
    no user for the email and the password of the request (each [None]
    when missing), and then the [ValidationError] of the message
    ['Please enter correct email and password ']; otherwise it returns
    the attributes with the user under ["user"], every other key as it
    was. *)
Theorem login_validate_adds_the_user
    (dj : Web.django) (attrs : list (str * Web.item)) :
  match Web.LoginSerializer.validate dj attrs with
  | Ok attrs' =>
      exists u,
        Web.authenticate dj
          (Web.LoginSerializer.get_or_None attrs (py "email"))
          (Web.LoginSerializer.get_or_None attrs (py "password")) = Some u
        /\ Web.Dict.get attrs' (py "user") = Some (Web.User u)
        /\ forall k, k = py "user" \/ Web.Dict.get attrs' k = Web.Dict.get attrs k
  | Err e =>
      Web.authenticate dj
        (Web.LoginSerializer.get_or_None attrs (py "email"))
        (Web.LoginSerializer.get_or_None attrs (py "password")) = None
      /\ e = Web.LoginSerializer.wrong_email_or_password
  end.
Proof.
  unfold Web.LoginSerializer.validate.
  destruct (Web.authenticate dj _ _) as [u|]; [|split; reflexivity].
  exists u. split; [reflexivity|]. split; [apply get_set|].
  intros k. destruct (str_eqb k (py "user")) eqn:E.
  - left. apply str_eqb_eq. assumption.
  - right. apply get_set_other. intros ->. rewrite str_eqb_refl in E. discriminate.
Qed.
